(** * ErcasPay Node.js client: a shallow embedding and its properties

    The development follows the JavaScript sources of the SDK:

    - [Js]             the fragment of JavaScript values and string
                       operations the sources rely on;
    - [Base64], [Rsa]  Node's [Buffer.toString('base64')] and
                       [crypto.publicEncrypt] with [RSA_PKCS1_PADDING];
    - [CardEncryptor]  src/Utils/CardEncryptor.js;
    - [BrowserDetails], [Device], [DeviceAlt], [PayerDeviceDto]
                       the request-capture data objects;
    - [ErcasPay], [ErcasPaySsl]
                       the two revisions of the gateway client.

    JavaScript strings are modelled by [string], read as the UTF-8 bytes
    of the text: this is what [Buffer.from] produces and what the key
    file contains on disk. *)

From Stdlib Require Import ZArith String Ascii List Lia Zpow_facts DecimalString.
From Stdlib.Strings Require Import Byte.
From stdpp Require Import base tactics option list gmap strings.

Set Default Proof Using "Type".
Set Warnings "-register-all".

(* ================================================================== *)
(** * JavaScript values and string operations *)
(* ================================================================== *)

Module Js.

(** The values that flow through the SDK.  [JNum] carries an integral
    Number (below 10^21 in magnitude, where JavaScript prints all the
    digits); [JObj] is a plain object and keeps its properties, whose
    names are pairwise distinct and are not array indices, in insertion
    order, which is the order [JSON.stringify] emits them in (an
    object enumerates names that are array indices first, in numeric
    order).  BigInts, functions and objects that contain themselves
    are not values of this type. *)
Inductive JsVal : Type :=
| JUndefined
| JNull
| JBool (b : bool)
| JNum (n : Z)
| JStr (s : string)
| JArr (items : list JsVal)
| JObj (props : list (string * JsVal)).

(** ToBoolean, as used by [!x], [x || y] and [x ? a : b]. *)
Definition truthy (v : JsVal) : bool :=
  match v with
  | JUndefined | JNull => false
  | JBool b => b
  | JNum n => negb (n =? 0)%Z
  | JStr s => negb (String.eqb s "")
  | JArr _ | JObj _ => true
  end.

(** [a || b] *)
Definition or_else (a b : JsVal) : JsVal := if truthy a then a else b.

Definition join (sep : string) (parts : list string) : string :=
  String.concat sep parts.

Definition decimal (n : Z) : string := NilZero.string_of_int (Z.to_int n).

(** ToString, as applied by template literals and by [new Error(x)].
    Array elements that are [null] or [undefined] print as the empty
    string (Array.prototype.join). *)
Fixpoint ToString (v : JsVal) : string :=
  match v with
  | JUndefined => "undefined"
  | JNull => "null"
  | JBool true => "true"
  | JBool false => "false"
  | JNum n => decimal n
  | JStr s => s
  | JArr items =>
      join "," (List.map (fun x =>
                            match x with
                            | JUndefined | JNull => ""
                            | _ => ToString x
                            end) items)
  | JObj _ => "[object Object]"
  end.

(** Own-property lookup on an object literal; the last definition of a
    key wins, as in an object initialiser. *)
Fixpoint lookup_prop (k : string) (props : list (string * JsVal)) : option JsVal :=
  match props with
  | [] => None
  | (k', v) :: rest =>
      match lookup_prop k rest with
      | Some w => Some w
      | None => if String.eqb k k' then Some v else None
      end
  end.

(** [v.k]: [None] stands for the TypeError raised when [v] is
    [undefined] or [null]; a missing property reads as [undefined].
    Only own properties of object literals are modelled. *)
Definition getProp (v : JsVal) (k : string) : option JsVal :=
  match v with
  | JUndefined | JNull => None
  | JObj props => Some (default JUndefined (lookup_prop k props))
  | _ => Some JUndefined
  end.

(** [v?.k] *)
Definition getPropOpt (v : JsVal) (k : string) : JsVal :=
  default JUndefined (getProp v k).

(** ** Strings *)

Definition lower_ascii (c : ascii) : ascii :=
  let n := N_of_ascii c in
  if ((65 <=? n) && (n <=? 90))%N then ascii_of_N (n + 32) else c.

(** [s.toLowerCase()] on the ASCII letters; bytes outside ASCII are
    left as they are. *)
Fixpoint toLowerCase (s : string) : string :=
  match s with
  | EmptyString => EmptyString
  | String c rest => String (lower_ascii c) (toLowerCase rest)
  end.

Fixpoint drop (n : nat) (s : string) : string :=
  match n, s with
  | O, _ => s
  | S n', String _ rest => drop n' rest
  | S _, EmptyString => EmptyString
  end.

(** [s.substr(0, n)] and [s.substr(n)] for a non-negative [n].  They
    count bytes where JavaScript counts UTF-16 units; the two agree on
    the ASCII prefix they are used to test for and to cut off. *)
Definition substr_to (n : nat) (s : string) : string := String.substring 0 n s.
Definition substr_from (n : nat) (s : string) : string := drop n s.

(** [s.includes(pat)] *)
Fixpoint includes (pat s : string) : bool :=
  String.prefix pat s ||
  match s with
  | EmptyString => false
  | String _ rest => includes pat rest
  end.

(** [s.replace(pat, rep)] with a string pattern: only the first
    occurrence is replaced. *)
Fixpoint replace (pat rep s : string) : string :=
  if String.prefix pat s then rep +:+ drop (String.length pat) s
  else match s with
       | EmptyString => EmptyString
       | String c rest => String c (replace pat rep rest)
       end.

(** White space and line terminators of ECMAScript, in UTF-8:
    one-byte TAB, LF, VT, FF, CR, SP; two-byte U+00A0; three-byte
    U+1680, U+2000..U+200A, U+2028, U+2029, U+202F, U+205F, U+3000
    and U+FEFF. *)
Definition ws1 (a : ascii) : bool :=
  let n := N_of_ascii a in ((9 <=? n) && (n <=? 13) || (n =? 32))%N.

Definition ws2 (a b : ascii) : bool :=
  ((N_of_ascii a =? 194) && (N_of_ascii b =? 160))%N.

Definition ws3 (a b c : ascii) : bool :=
  let '(x, y, z) := (N_of_ascii a, N_of_ascii b, N_of_ascii c) in
  ((x =? 225) && (y =? 154) && (z =? 128)
   || (x =? 226) && (y =? 128)
      && ((128 <=? z) && (z <=? 138) || (z =? 168) || (z =? 169) || (z =? 175))
   || (x =? 226) && (y =? 129) && (z =? 159)
   || (x =? 227) && (y =? 128) && (z =? 128)
   || (x =? 239) && (y =? 187) && (z =? 191))%N.

(** [s.trimStart()] *)
Fixpoint trimStart (s : string) : string :=
  match s with
  | EmptyString => EmptyString
  | String a r1 =>
      if ws1 a then trimStart r1
      else match r1 with
           | EmptyString => s
           | String b r2 =>
               if ws2 a b then trimStart r2
               else match r2 with
                    | EmptyString => s
                    | String c r3 => if ws3 a b c then trimStart r3 else s
                    end
           end
  end.

Fixpoint all_chars (p : ascii → bool) (s : string) : bool :=
  match s with
  | EmptyString => true
  | String c rest => p c && all_chars p rest
  end.

(** The bytes that occur in the encoding of some white-space
    character. *)
Definition ws_byte (a : ascii) : bool :=
  let n := N_of_ascii a in
  ((9 <=? n) && (n <=? 13) || (n =? 32) || (n =? 194) || (n =? 160)
   || (n =? 225) || (n =? 154) || (128 <=? n) && (n <=? 138)
   || (n =? 168) || (n =? 169) || (n =? 175) || (n =? 226) || (n =? 129)
   || (n =? 159) || (n =? 227) || (n =? 239) || (n =? 187) || (n =? 191))%N.

(** Does [s] consist of white space only? *)
Definition blank (s : string) : bool := String.eqb (trimStart s) "".

(** [s.trimEnd()] *)
Fixpoint trimEnd (s : string) : string :=
  match s with
  | EmptyString => EmptyString
  | String a rest => if blank s then EmptyString else String a (trimEnd rest)
  end.

(** [s.trim()] *)
Definition trim (s : string) : string := trimEnd (trimStart s).

(** ** JSON.stringify *)

Definition dquote : ascii := ascii_of_N 34.

Definition hex_digit (n : N) : ascii :=
  if (n <? 10)%N then ascii_of_N (48 + n) else ascii_of_N (87 + n).

(** QuoteJSONString on one code unit. *)
Definition json_escape (c : ascii) : string :=
  let n := N_of_ascii c in
  if (n =? 34)%N then String "\" (String dquote "")
  else if (n =? 92)%N then "\\"
  else if (n =? 8)%N then "\b"
  else if (n =? 9)%N then "\t"
  else if (n =? 10)%N then "\n"
  else if (n =? 12)%N then "\f"
  else if (n =? 13)%N then "\r"
  else if (n <? 32)%N then
    "\u00" +:+ String (hex_digit (n / 16)) (String (hex_digit (n mod 16)) "")
  else String c "".

Fixpoint json_escape_all (s : string) : string :=
  match s with
  | EmptyString => EmptyString
  | String c rest => json_escape c +:+ json_escape_all rest
  end.

Definition json_quote (s : string) : string :=
  String dquote (json_escape_all s) +:+ String dquote "".

(** A code unit that [JSON.stringify] writes as it is. *)
Definition unescaped (c : ascii) : bool :=
  let n := N_of_ascii c in
  ((32 <=? n) && negb (n =? 34) && negb (n =? 92))%N.

(** [JSON.stringify(v)]; [None] is the [undefined] it returns for an
    [undefined] argument.  Properties whose value is [undefined] are
    left out of an object, and print as [null] inside an array.  On
    the values of [JsVal] the call always returns; it throws a
    TypeError on what [JsVal] leaves out: a BigInt, an object that
    contains itself, an object whose [toJSON] throws. *)
Fixpoint stringify (v : JsVal) : option string :=
  match v with
  | JUndefined => None
  | JNull => Some "null"
  | JBool true => Some "true"
  | JBool false => Some "false"
  | JNum n => Some (decimal n)
  | JStr s => Some (json_quote s)
  | JArr items =>
      Some ("[" +:+ join "," (List.map (fun x => default "null" (stringify x)) items)
                +:+ "]")
  | JObj props =>
      let member (kv : string * JsVal) : list string :=
        match stringify (snd kv) with
        | Some text => [json_quote (fst kv) +:+ ":" +:+ text]
        | None => []
        end in
      Some ("{" +:+ join "," (List.concat (List.map member props)) +:+ "}")
  end.

(** ** Exceptions *)

(** What axios hands back for a request that reached the server. *)
Record AxiosResponse := { status : Z; data : JsVal }.

Inductive ErrorName := Error | TypeError | ReferenceError | AxiosError.

(** An Error object with the properties the SDK reads or sets;
    [JUndefined] stands for a property that was never assigned, and
    [response] is only ever set by axios. *)
Record JsError := {
  name : ErrorName;
  message : string;
  response : option AxiosResponse;
  statusCode : JsVal;
  responseData : JsVal
}.

(** [new Error(msg)], [new TypeError(msg)], ... *)
Definition newError (n : ErrorName) (msg : string) : JsError :=
  {| name := n; message := msg; response := None;
     statusCode := JUndefined; responseData := JUndefined |}.

(** How a synchronous call completes. *)
Inductive Completion (A : Type) : Type :=
| Normal (a : A)
| Throw (e : JsError).
Arguments Normal {A} a.
Arguments Throw {A} e.

Definition is_normal {A} (c : Completion A) : bool :=
  match c with Normal _ => true | Throw _ => false end.

#[global] Instance completion_ret : MRet Completion := fun A a => Normal a.
#[global] Instance completion_bind : MBind Completion :=
  fun A B k c => match c with Normal a => k a | Throw e => Throw e end.

(** A string that may be missing ([undefined]), kept when it is truthy. *)
Definition nonempty (a : option string) : option string :=
  match a with
  | Some s => if String.eqb s "" then None else Some s
  | None => None
  end.

(** [a || b] where [a] is a string that may be missing and [b] is a
    string literal. *)
Definition str_or (a : option string) (b : string) : string :=
  default b (nonempty a).

End Js.
Import Js.

(* ================================================================== *)
(** * Buffer.toString('base64') *)
(* ================================================================== *)

Module Base64.

Definition alphabet : string :=
  "ABCDEFGHIJKLMNOPQRSTUVWXYZabcdefghijklmnopqrstuvwxyz0123456789+/".

Definition table : list ascii := list_ascii_of_string alphabet.

Definition pad : ascii := "="%char.

(** The [k]-th six-bit group (from the right) of the 24-bit group [n]. *)
Definition sextet (n : N) (k : N) : ascii :=
  nth (N.to_nat ((n / 64 ^ k) mod 64)) table pad.

Definition group (a b c : byte) : N :=
  (Byte.to_N a * 65536 + Byte.to_N b * 256 + Byte.to_N c)%N.

(** Standard (not URL-safe) base64 with padding. *)
Fixpoint encode (bs : list byte) : string :=
  match bs with
  | [] => EmptyString
  | [a] =>
      let n := group a x00 x00 in
      String (sextet n 3) (String (sextet n 2) (String pad (String pad EmptyString)))
  | [a; b] =>
      let n := group a b x00 in
      String (sextet n 3) (String (sextet n 2) (String (sextet n 1) (String pad EmptyString)))
  | a :: b :: c :: rest =>
      let n := group a b c in
      String (sextet n 3) (String (sextet n 2) (String (sextet n 1)
        (String (sextet n 0) (encode rest))))
  end.

(** The character class [[A-Za-z0-9+/=]]. *)
Definition in_class (c : ascii) : bool :=
  let n := N_of_ascii c in
  ((65 <=? n) && (n <=? 90) || (97 <=? n) && (n <=? 122) || (48 <=? n) && (n <=? 57)
   || (n =? 43) || (n =? 47) || (n =? 61))%N.

(** [/^[A-Za-z0-9+/=]+$/.test(s)] *)
Definition matches_class (s : string) : bool :=
  negb (String.eqb s "") && all_chars in_class s.

End Base64.

(* ================================================================== *)
(** * crypto.publicEncrypt with RSA_PKCS1_PADDING (RFC 8017, RSAES-PKCS1-v1_5) *)
(* ================================================================== *)

Module Rsa.
Local Open Scope Z_scope.

Record PublicKey := { modulus : Z; publicExponent : Z }.

(** Size of the modulus in bits and in octets ([k] in the RFC). *)
Definition bits (key : PublicKey) : Z := Z.log2 (modulus key) + 1.
Definition octets (key : PublicKey) : nat := Z.to_nat ((bits key + 7) / 8).

Definition octet (z : Z) : byte := byte_of_ascii (ascii_of_N (Z.to_N (z mod 256))).

(** Octet string to integer, big endian. *)
Definition OS2IP (bs : list byte) : Z :=
  fold_left (fun acc b => acc * 256 + Z.of_N (Byte.to_N b)) bs 0.

(** The [len] low-order base-256 digits of [x], least significant first. *)
Fixpoint digits256 (x : Z) (len : nat) : list byte :=
  match len with
  | O => []
  | S len' => octet x :: digits256 (x / 256) len'
  end.

(** Integer to octet string of length [len], big endian. *)
Definition I2OSP (x : Z) (len : nat) : list byte := rev (digits256 x len).

(** The RSA encryption primitive, [m ^ e mod n]. *)
Definition RSAEP (key : PublicKey) (m : Z) : Z :=
  Zpow_mod m (publicExponent key) (modulus key).

(** EME-PKCS1-v1_5: [0x00 || 0x02 || PS || 0x00 || M]. *)
Definition EME (ps msg : list byte) : list byte :=
  x00 :: x02 :: ps ++ x00 :: msg.

(** The padding overhead, [RSA_PKCS1_PADDING_SIZE]. *)
Definition PADDING_SIZE : nat := 11.

(** The ciphertext of a message that fits: the encoded message is
    turned into an integer, raised to the public exponent and written
    back as [k] octets.  [rnd i] is the [i]-th non-zero random octet
    drawn for the padding string [PS]. *)
Definition ciphertext (rnd : nat → byte) (key : PublicKey) (msg : list byte)
  : list byte :=
  let k := octets key in
  let ps := List.map rnd (seq 0 (k - length msg - 3)) in
  I2OSP (RSAEP key (OS2IP (EME ps msg))) k.

(** RSAES-PKCS1-V1_5-ENCRYPT.  [None] is the message-too-long error,
    raised when the message is longer than [k - 11] octets. *)
Definition encrypt (rnd : nat → byte) (key : PublicKey) (msg : list byte)
  : option (list byte) :=
  if (octets key <? length msg + PADDING_SIZE)%nat then None
  else Some (ciphertext rnd key msg).

End Rsa.

(** The part of Node's [crypto] module that [publicEncrypt] depends on:
    the PEM decoder that turns key text into a key object, and the
    source of padding octets. *)
Record NodeCrypto := {
  createPublicKey : string → option Rsa.PublicKey;
  randomOctet : nat → byte
}.

Definition ERR_UNSUPPORTED : string := "error:1E08010C:DECODER routines::unsupported".
Definition ERR_DATA_TOO_LARGE : string :=
  "error:0200006E:rsa routines::data too large for key size".
Definition ERR_BUFFER_ARG : string :=
  "The first argument must be of type string or an instance of Buffer, ArrayBuffer, or Array or an Array-like Object. Received undefined".

(** [crypto.publicEncrypt({ key, padding: RSA_PKCS1_PADDING }, buffer)];
    the left injection carries the message of the error it throws. *)
Definition publicEncrypt (crypto : NodeCrypto) (key : string) (buffer : list byte)
  : string + list byte :=
  match createPublicKey crypto key with
  | None => inl ERR_UNSUPPORTED
  | Some pk =>
      match Rsa.encrypt (randomOctet crypto) pk buffer with
      | None => inl ERR_DATA_TOO_LARGE
      | Some ciphertext => inr ciphertext
      end
  end.

(* ================================================================== *)
(** * The file system seen by [fs.existsSync] and [fs.readFileSync] *)
(* ================================================================== *)

Module Fs.

(** A path names a file whose text can be read, or something that
    exists but cannot be read as a file (a directory, a file without
    read permission). *)
Inductive Node := File (content : string) | Unreadable.

Definition existsSync (fs : gmap string Node) (path : string) : bool :=
  bool_decide (is_Some (fs !! path)).

(** [None]: the call throws. *)
Definition readFileSync (fs : gmap string Node) (path : string) : option string :=
  match fs !! path with
  | Some (File content) => Some content
  | _ => None
  end.

End Fs.

(* ================================================================== *)
(** * CardEncryptor *)
(* ================================================================== *)

(** The first and last line of a PEM public key, in the generic form
    and in the form marked RSA. *)
Module Pem.
Definition GENERIC_HEADER : string := "-----BEGIN PUBLIC KEY-----".
Definition GENERIC_FOOTER : string := "-----END PUBLIC KEY-----".
Definition RSA_HEADER : string := "-----BEGIN RSA PUBLIC KEY-----".
Definition RSA_FOOTER : string := "-----END RSA PUBLIC KEY-----".
End Pem.

Module CardEncryptor.

Record t := { publicKeyPath : string }.

Definition constructor (fs : gmap string Fs.Node) (path : string) : Completion t :=
  if negb (Fs.existsSync fs path) then
    Throw (newError Error ("Public key file not found: " +:+ path))
  else Normal {| publicKeyPath := path |}.

(** [publicKey.replace('RSA', '').trim()] *)
Definition normalizeKey (publicKey : string) : string :=
  trim (replace "RSA" "" publicKey).

(** [encrypt(cardParams)], given how [JSON.stringify(cardParams)]
    completes.  The key file is read inside the first [try]; the call
    of [JSON.stringify] stands between the two [try] blocks, so what it
    throws leaves [encrypt] as it is; [Buffer.from], [publicEncrypt]
    and the base64 conversion are inside the second [try], whose
    [catch] wraps the message of the error. *)
Definition encrypt_given (crypto : NodeCrypto) (fs : gmap string Fs.Node)
           (this : t) (serialised : Completion (option string)) : Completion string :=
  match Fs.readFileSync fs (publicKeyPath this) with
  | None =>
      Throw (newError Error ("Failed to read public key file: " +:+ publicKeyPath this))
  | Some publicKey =>
      let publicKey := normalizeKey publicKey in
      match serialised with
      | Throw e => Throw e
      | Normal cardJson =>
          let attempt : string + string :=
            match cardJson with
            | None => inl ERR_BUFFER_ARG
            | Some text =>
                match publicEncrypt crypto publicKey (list_byte_of_string text) with
                | inl msg => inl msg
                | inr encrypted => inr (Base64.encode encrypted)
                end
            end in
          match attempt with
          | inr payload => Normal payload
          | inl msg => Throw (newError Error ("Encryption failed: " +:+ msg))
          end
      end
  end.

(** [encrypt(cardParams)] on a value of [JsVal], where
    [JSON.stringify] returns. *)
Definition encrypt (crypto : NodeCrypto) (fs : gmap string Fs.Node)
           (this : t) (cardParams : JsVal) : Completion string :=
  encrypt_given crypto fs this (Normal (stringify cardParams)).

End CardEncryptor.

(** The card record of the data model, and the object literal
    [initiateCardTransaction] builds from it. *)
Record CardFields := { pan : string; expiryDate : string; cvv : string; pin : string }.

Definition cardObject (c : CardFields) : JsVal :=
  JObj [("cvv", JStr (cvv c)); ("pin", JStr (pin c));
        ("expiryDate", JStr (expiryDate c)); ("pan", JStr (pan c))].

(* ================================================================== *)
(** * The inbound request and the device data objects *)
(* ================================================================== *)

(** What the factories read off a framework request (Express's [req],
    Koa's [ctx.request]): [request.ip], [request.headers[...]] and
    [request.connection.remoteAddress].  [None] is [undefined]. *)
Record Socket := { remoteAddress : option string }.

Record Request := {
  ip : option string;
  headers : option (gmap string string);
  connection : option Socket
}.

Definition cannot_read (base prop : string) : JsError :=
  newError TypeError
    ("Cannot read properties of " +:+ base +:+ " (reading '" +:+ prop +:+ "')").

(** [request.headers[k]] *)
Definition header (request : Request) (k : string) : Completion (option string) :=
  match headers request with
  | Some h => Normal (h !! k)
  | None => Throw (cannot_read "undefined" k)
  end.

(** Class instances are kept as the object of their own fields. *)
Definition field (this : JsVal) (k : string) : JsVal := getPropOpt this k.

(** src/Types/BrowserDetails.js *)
Module BrowserDetails.

Definition constructor (args : JsVal) : JsVal :=
  JObj [("challengeWindowSize", field args "challengeWindowSize");
        ("acceptHeaders", field args "acceptHeaders");
        ("colorDepth", field args "colorDepth");
        ("javaEnabled", field args "javaEnabled");
        ("language", field args "language");
        ("screenHeight", field args "screenHeight");
        ("screenWidth", field args "screenWidth");
        ("timeZone", field args "timeZone")].

Definition fromRequest (request : Request) : JsVal :=
  let h : gmap string string := default ∅ (headers request) in
  constructor
    (JObj [("challengeWindowSize", JStr "FULL_SCREEN");
           ("acceptHeaders", JStr (str_or (h !! "accept") "application/json"));
           ("colorDepth", JNum 24);
           ("javaEnabled", JBool true);
           ("language", JStr "en-US");
           ("screenHeight", JNum 473);
           ("screenWidth", JNum 1600);
           ("timeZone", JNum 273)]).

Definition toArray (this : JsVal) : JsVal :=
  JObj [("3DSecureChallengeWindowSize", field this "challengeWindowSize");
        ("acceptHeaders", field this "acceptHeaders");
        ("colorDepth", field this "colorDepth");
        ("javaEnabled", field this "javaEnabled");
        ("language", field this "language");
        ("screenHeight", field this "screenHeight");
        ("screenWidth", field this "screenWidth");
        ("timeZone", field this "timeZone")].

End BrowserDetails.

(** The other BrowserDetails source, which reads [accept-language]. *)
Module BrowserDetailsAlt.

Definition constructor := BrowserDetails.constructor.
Definition toArray := BrowserDetails.toArray.

Definition fromRequest (request : Request) : JsVal :=
  let h : gmap string string := default ∅ (headers request) in
  let acceptLanguage := str_or (h !! "accept-language") "en-US" in
  constructor
    (JObj [("challengeWindowSize", JStr "FULL_SCREEN");
           ("acceptHeaders", JStr (str_or (h !! "accept") "application/json"));
           ("colorDepth", JNum 24);
           ("javaEnabled", JBool true);
           ("language", JStr acceptLanguage);
           ("screenHeight", JNum 473);
           ("screenWidth", JNum 1600);
           ("timeZone", JNum 273)]).

End BrowserDetailsAlt.

Record DeviceObj := { browser : JsVal; browserDetails : JsVal; ipAddress : JsVal }.

(** [constructor({ browser, browserDetails, ipAddress })]: the argument
    is destructured by property name. *)
Definition Device_constructor (args : JsVal) : DeviceObj :=
  {| browser := field args "browser";
     browserDetails := field args "browserDetails";
     ipAddress := field args "ipAddress" |}.

Definition MAPPED_PREFIX : string := "::ffff:".

(** The Device source that resolves the address from [request.ip] or the
    [x-forwarded-for] header. *)
Module Device.

Definition constructor := Device_constructor.

Definition fromRequest (request : Request) : Completion DeviceObj :=
  ip ← match nonempty (ip request) with
       | Some s => mret s
       | None => xff ← header request "x-forwarded-for";
                 mret (str_or xff "127.0.0.1")
       end;
  let ip := if String.eqb (substr_to 7 ip) MAPPED_PREFIX then substr_from 7 ip else ip in
  ua ← header request "user-agent";
  let browser := str_or ua "Unknown" in
  let ipAddress := ip in
  let browserDetails := BrowserDetails.fromRequest request in
  mret (constructor (JObj [("browser", JStr browser);
                           ("browserDetails", browserDetails);
                           ("ipAddress", JStr ipAddress)])).

Definition toArray (this : DeviceObj) : JsVal :=
  JObj [("browser", browser this);
        ("browserDetails", BrowserDetails.toArray (browserDetails this));
        ("ipAddress", ipAddress this)].

End Device.

(** The other Device source, which resolves the address from
    [request.ip] or [request.connection.remoteAddress]. *)
Module DeviceAlt.

Definition constructor := Device_constructor.

Definition fromRequest (request : Request) : Completion DeviceObj :=
  ua ← header request "user-agent";
  let userAgent := str_or ua "Unknown" in
  ipAddress ← match nonempty (ip request) with
              | Some s => mret s
              | None =>
                  match connection request with
                  | Some sock => mret (str_or (remoteAddress sock) "127.0.0.1")
                  | None => Throw (cannot_read "undefined" "remoteAddress")
                  end
              end;
  let browserDetails := BrowserDetailsAlt.fromRequest request in
  mret (constructor (JObj [("userAgent", JStr userAgent);
                           ("browserDetails", browserDetails);
                           ("ipAddress", JStr ipAddress)])).

Definition toArray (this : DeviceObj) : JsVal :=
  JObj [("browser", browser this);
        ("browserDetails", BrowserDetailsAlt.toArray (browserDetails this));
        ("ipAddress", ipAddress this)].

End DeviceAlt.

Module PayerDeviceDto.

Record t := { device : DeviceObj }.

Definition fromRequest (request : Request) : Completion t :=
  d ← Device.fromRequest request; mret {| device := d |}.

Definition toArray (this : t) : JsVal :=
  JObj [("payerDeviceDto", JObj [("device", Device.toArray (device this))])].

End PayerDeviceDto.

Module PayerDeviceDtoAlt.

Record t := { device : DeviceObj }.

Definition fromRequest (request : Request) : Completion t :=
  d ← DeviceAlt.fromRequest request; mret {| device := d |}.

Definition toArray (this : t) : JsVal :=
  JObj [("payerDeviceDto", JObj [("device", DeviceAlt.toArray (device this))])].

(** The instance as axios serialises it when it is put in a request
    body as it is: the own fields of the nested instances. *)
Definition toJSON (this : t) : JsVal :=
  JObj [("device", JObj [("browser", browser (device this));
                         ("browserDetails", browserDetails (device this));
                         ("ipAddress", ipAddress (device this))])].

End PayerDeviceDtoAlt.

(* ================================================================== *)
(** * The gateway client *)
(* ================================================================== *)

Inductive LogLevel := LogDebug | LogInfo | LogError.

(** What a call does besides returning: lines handed to the logger and
    calls made on the axios instance. *)
Inductive Event :=
| Log (level : LogLevel) (msg : string) (meta : JsVal)
| HttpCall (method url : string) (body : JsVal).

Definition is_http (e : Event) : bool :=
  match e with HttpCall _ _ _ => true | Log _ _ _ => false end.

(** A promise settled by axios. *)
Inductive AxiosResult := Resolved (r : AxiosResponse) | Rejected (e : JsError).

(** The axios instance, by property name: [None] for a property that is
    not a function. *)
Definition AxiosInstance : Type := string → option (string → JsVal → AxiosResult).

(** An (async) method of the client: the events it caused, in order,
    and how it completed (returned, or threw / rejected). *)
Definition Run (A : Type) : Type := (list Event * Completion A)%type.

#[global] Instance run_ret : MRet Run := fun A a => ([], Normal a).
#[global] Instance run_bind : MBind Run :=
  fun A B k m =>
    match m with
    | (t, Normal a) => let '(t', r) := k a in (t ++ t', r)
    | (t, Throw e) => (t, Throw e)
    end.

Definition emit (e : Event) : Run unit := ([e], Normal tt).
Definition throw {A} (e : JsError) : Run A := ([], Throw e).
Definition lift {A} (c : Completion A) : Run A := ([], c).

(** [try { body } catch (error) { handler }] *)
Definition try_catch {A} (body : Run A) (handler : JsError → Run A) : Run A :=
  match body with
  | (t, Normal a) => (t, Normal a)
  | (t, Throw e) => let '(t', r) := handler e in (t ++ t', r)
  end.

Definition not_a_function (what : string) : JsError :=
  newError TypeError (what +:+ " is not a function").

(** [method.toLowerCase()] *)
Definition lowered (method : JsVal) : Completion string :=
  match method with
  | JStr s => Normal (toLowerCase s)
  | _ => Throw (not_a_function "method.toLowerCase")
  end.

(** [await this.client[name](relativeUrl, data)] *)
Definition invoke (client : AxiosInstance) (name relativeUrl : string) (data : JsVal)
  : Run AxiosResponse :=
  match client name with
  | None => throw (not_a_function "this.client[method.toLowerCase(...)]")
  | Some f =>
      emit (HttpCall name relativeUrl data) ;;
      match f relativeUrl data with
      | Resolved r => mret r
      | Rejected e => throw e
      end
  end.

Definition defaulted (v dflt : JsVal) : JsVal :=
  match v with JUndefined => dflt | _ => v end.

Definition API_ERROR_ON_PATH : string :=
  "An error occurred while calling the Ercaspay API on path: ".
Definition UNEXPECTED_ON_PATH : string :=
  "An unexpected error occurred while making the API request on path: ".

(** [new https.Agent({ rejectUnauthorized })] *)
Record HttpsAgent := { rejectUnauthorized : bool }.

(** The argument of [axios.create]. *)
Record AxiosConfig := {
  cfg_baseURL : string;
  cfg_headers : list (string * string);
  cfg_httpsAgent : option HttpsAgent
}.

(** [axios.create], the one entry point of the axios library used. *)
Definition Axios : Type := AxiosConfig → AxiosInstance.

Definition clientHeaders (secretKey : string) : list (string * string) :=
  [("Authorization", "Bearer " +:+ secretKey);
   ("Accept", "application/json");
   ("Content-Type", "application/json")].

(** What a card transaction reads from outside the client: the
    directory of the module, the file system and Node's crypto. *)
Record Host := {
  dirname : string;
  files : gmap string Fs.Node;
  crypto : NodeCrypto
}.

(** The argument of [initiateCardTransaction]. *)
Record CardCall := {
  request : Request;
  transactionRef : JsVal;
  cardNumber : JsVal;
  cardExpiryMonth : JsVal;
  cardExpiryYear : JsVal;
  cardCvv : JsVal;
  cardPin : JsVal
}.

(** The object literal handed to [encryptor.encrypt]. *)
Definition cardParams (p : CardCall) : JsVal :=
  JObj [("cvv", cardCvv p);
        ("pin", cardPin p);
        ("expiryDate", JStr (ToString (cardExpiryMonth p) +:+ ToString (cardExpiryYear p)));
        ("pan", cardNumber p)].

(** The client revision whose errors carry [statusCode] and
    [responseData]. *)
Module ErcasPay.

Record t := { baseURL : string; secretKey : string; client : AxiosInstance }.

Definition initializeClient (axios : Axios) (baseURL secretKey : string) : Run t :=
  emit (Log LogDebug "Initiallizing axios client" (JObj [("baseURL", JStr baseURL)])) ;;
  let client := axios {| cfg_baseURL := baseURL;
                         cfg_headers := clientHeaders secretKey;
                         cfg_httpsAgent := None |} in
  emit (Log LogDebug "Initiallized axios client successfully" JUndefined) ;;
  mret {| baseURL := baseURL; secretKey := secretKey; client := client |}.

Definition constructor (axios : Axios) (baseURL secretKey : string) : Run t :=
  initializeClient axios baseURL secretKey.

Definition makeRequest (this : t) (relativeUrl : string) (method data : JsVal)
  : Run JsVal :=
  let data := defaulted data (JObj []) in
  emit (Log LogDebug "Making API request"
            (JObj [("url", JStr relativeUrl); ("method", method)])) ;;
  if negb (truthy method) then
    emit (Log LogError "Method cannot be empty when calling makeRequest" JUndefined) ;;
    throw (newError Error "Method cannot be empty")
  else
    try_catch
      (name ← lift (lowered method);
       response ← invoke (client this) name relativeUrl data;
       emit (Log LogDebug "API request successful" JUndefined) ;;
       mret (Js.data response))
      (fun error =>
         match Js.response error with
         | Some resp =>
             emit (Log LogError "API error response"
                       (JObj [("data", Js.data resp); ("status", JNum (status resp))])) ;;
             let err :=
               newError Error
                 (ToString (or_else (getPropOpt (Js.data resp) "errorMessage")
                                    (JStr (API_ERROR_ON_PATH +:+ relativeUrl)))) in
             throw {| name := name err; message := message err;
                      response := response err;
                      statusCode := JNum (status resp);
                      responseData := Js.data resp |}
         | None =>
             emit (Log LogError "API request error" (JStr (message error))) ;;
             let err :=
               newError Error
                 (ToString (or_else (JStr (message error))
                                    (JStr (UNEXPECTED_ON_PATH +:+ relativeUrl)))) in
             throw {| name := name err; message := message err;
                      response := response err;
                      statusCode := JNum 500;
                      responseData := JNull |}
         end).

Definition initiateCardTransaction (host : Host) (this : t) (p : CardCall) : Run JsVal :=
  emit (Log LogDebug "Initiating card transaction"
            (JObj [("transactionRef", transactionRef p)])) ;;
  dto ← lift (PayerDeviceDto.fromRequest (request p));
  let deviceDetails := PayerDeviceDto.toArray dto in
  emit (Log LogDebug "Device details captured" deviceDetails) ;;
  encryptor ← lift (CardEncryptor.constructor (files host)
                      (dirname host +:+ "/key/rsa_public_key.pub"));
  encryptedCard ← lift (CardEncryptor.encrypt (crypto host) (files host) encryptor
                          (cardParams p));
  response ← makeRequest this "/api/v1/payment/cards/initialize" (JStr "POST")
               (JObj [("transactionReference", transactionRef p);
                      ("payload", JStr encryptedCard);
                      ("deviceDetails", deviceDetails)]);
  emit (Log LogDebug "Card transaction initiated successfully"
            (JObj [("transactionRef", transactionRef p)])) ;;
  mret response.

End ErcasPay.

(** The error [ErcasPay.makeRequest] raises when the call on the client
    is rejected with [e]. *)
Definition mapped (relativeUrl : string) (e : JsError) : JsError :=
  match response e with
  | Some r =>
      {| name := Error;
         message := ToString (or_else (getPropOpt (data r) "errorMessage")
                                      (JStr (API_ERROR_ON_PATH +:+ relativeUrl)));
         response := None;
         statusCode := JNum (status r);
         responseData := data r |}
  | None =>
      {| name := Error;
         message := ToString (or_else (JStr (message e))
                                      (JStr (UNEXPECTED_ON_PATH +:+ relativeUrl)));
         response := None;
         statusCode := JNum 500;
         responseData := JNull |}
  end.

(** The client revision that takes a [verifySsl] flag. *)
Module ErcasPaySsl.

(** The constructor argument; [JUndefined] is an omitted [verifySsl]. *)
Record Config := { cfg_base : string; cfg_secret : string; cfg_verifySsl : JsVal }.

Record t := {
  baseURL : string;
  secretKey : string;
  verifySsl : JsVal;
  clientConfig : AxiosConfig;
  client : AxiosInstance
}.

(** The names bound at the top of the module: its four [require]s and
    the class itself.  Node defines no global named [https]. *)
Definition module_scope : list string :=
  ["axios"; "winston"; "CardEncryptor"; "PayerDeviceDto"; "ErcasPay"].

(** Evaluating the identifier [x]. *)
Definition resolve (x : string) : Completion unit :=
  if existsb (String.eqb x) module_scope then Normal tt
  else Throw (newError ReferenceError (x +:+ " is not defined")).

Definition initializeClient (axios : Axios) (baseURL secretKey : string)
           (verifySsl : JsVal) : Run t :=
  emit (Log LogInfo "Initiallizing axios client"
            (JObj [("baseURL", JStr baseURL); ("verifySsl", verifySsl)])) ;;
  httpsAgent ← (if truthy verifySsl then mret None
                else lift (resolve "https") ;;
                     mret (Some {| rejectUnauthorized := false |}));
  let config := {| cfg_baseURL := baseURL;
                   cfg_headers := clientHeaders secretKey;
                   cfg_httpsAgent := httpsAgent |} in
  let client := axios config in
  emit (Log LogInfo "Initiallized axios client successfully" JUndefined) ;;
  mret {| baseURL := baseURL; secretKey := secretKey; verifySsl := verifySsl;
          clientConfig := config; client := client |}.

Definition constructor (axios : Axios) (config : Config) : Run t :=
  let verifySsl := defaulted (cfg_verifySsl config) (JBool true) in
  initializeClient axios (cfg_base config) (cfg_secret config) verifySsl.

Definition makeRequest (this : t) (relativeUrl : string) (method data : JsVal)
  : Run JsVal :=
  let data := defaulted data (JObj []) in
  emit (Log LogInfo "Making API request"
            (JObj [("url", JStr relativeUrl); ("method", method); ("data", data)])) ;;
  if negb (truthy method) then
    emit (Log LogError "Method cannot be empty when calling makeRequest" JUndefined) ;;
    throw (newError Error "Method cannot be empty")
  else
    try_catch
      (name ← lift (lowered method);
       response ← invoke (client this) name relativeUrl data;
       emit (Log LogInfo "API request successful" JUndefined) ;;
       mret (Js.data response))
      (fun error =>
         match Js.response error with
         | Some resp =>
             emit (Log LogError "API error response"
                       (JObj [("data", Js.data resp); ("status", JNum (status resp))])) ;;
             match getProp (Js.data resp) "errorMessage" with
             | None => throw (cannot_read (ToString (Js.data resp)) "errorMessage")
             | Some errorMessage =>
                 throw (newError Error
                          (ToString (or_else errorMessage
                                             (JStr (API_ERROR_ON_PATH +:+ relativeUrl)))))
             end
         | None =>
             emit (Log LogError "API request error" (JStr (message error))) ;;
             throw (newError Error
                      (ToString (or_else (JStr (message error))
                                         (JStr (UNEXPECTED_ON_PATH +:+ relativeUrl)))))
         end).

Definition initiateCardTransaction (host : Host) (this : t) (p : CardCall) : Run JsVal :=
  emit (Log LogInfo "Initiating card transaction"
            (JObj [("transactionRef", transactionRef p)])) ;;
  dto ← lift (PayerDeviceDtoAlt.fromRequest (request p));
  let deviceDetails := PayerDeviceDtoAlt.toJSON dto in
  encryptor ← lift (CardEncryptor.constructor (files host)
                      (dirname host +:+ "/key/public_key.pem"));
  encryptedCard ← lift (CardEncryptor.encrypt (crypto host) (files host) encryptor
                          (cardParams p));
  response ← makeRequest this "/api/v1/payment/cards/initialize" (JStr "POST")
               (JObj [("transactionReference", transactionRef p);
                      ("payload", JStr encryptedCard);
                      ("deviceDetails", deviceDetails)]);
  emit (Log LogInfo "Card transaction initiated successfully"
            (JObj [("response", response)])) ;;
  mret response.

End ErcasPaySsl.

(** The defaults of axios that decide how a request settles: a response
    resolves the promise when its status is 2xx ([validateStatus]) and
    rejects it otherwise, with the response attached to the error; a
    request that got no response rejects with an error that has none. *)
Module AxiosModel.

Inductive Transport := Responded (r : AxiosResponse) | NoResponse (reason : string).

Definition Network : Type := AxiosConfig → string → string → JsVal → Transport.

Definition validateStatus (status : Z) : bool := ((200 <=? status) && (status <? 300))%Z.

Definition settle (t : Transport) : AxiosResult :=
  match t with
  | Responded r =>
      if validateStatus (status r) then Resolved r
      else Rejected {| name := AxiosError;
                       message := "Request failed with status code " +:+ decimal (status r);
                       response := Some r;
                       statusCode := JUndefined;
                       responseData := JUndefined |}
  | NoResponse reason => Rejected (newError AxiosError reason)
  end.

(** The properties of an instance that are functions sending a
    request: [request] and the methods named after a verb.  The
    network is asked with the name of the function and the two
    arguments of the call.  [getUri], which builds a URL and sends
    nothing, and what an instance inherits from [Function] are left
    out. *)
Definition verbs : list string :=
  ["request"; "get"; "delete"; "head"; "options"; "post"; "put"; "patch";
   "postForm"; "putForm"; "patchForm"].

Definition create (net : Network) : Axios :=
  fun config name =>
    if existsb (String.eqb name) verbs
    then Some (fun url body => settle (net config name url body))
    else None.

End AxiosModel.

(* ================================================================== *)
(** * Card records and fixtures *)
(* ================================================================== *)

(** The JSON text of a card record, in the key order of [cardObject]. *)
Definition member (k v : string) : string := json_quote k +:+ ":" +:+ json_quote v.

Definition cardJson (c : CardFields) : string :=
  "{" +:+ join "," [member "cvv" (cvv c); member "pin" (pin c);
                    member "expiryDate" (expiryDate c); member "pan" (pan c)]
      +:+ "}".

(** A card record is well formed for a key of [k] octets when its four
    fields are present and non-empty and its JSON text fits under the
    PKCS#1 v1.5 limit of [k - 11] octets. *)
Definition well_formed (k : nat) (c : CardFields) : Prop :=
  pan c ≠ "" ∧ expiryDate c ≠ "" ∧ cvv c ≠ "" ∧ pin c ≠ "" ∧
  String.length (cardJson c) + 11 ≤ k.

(** The key file and card of tests/CardEncryptor.test.js. *)
Module Fixture.

Definition keyText : string :=
"
    -----BEGIN PUBLIC KEY-----
MIIBIjANBgkqhkiG9w0BAQEFAAOCAQ8AMIIBCgKCAQEAoLUWhs/7kVxZqJxJ1NEb
1sZWpdmd4NL/iMhVpZ3cBPYhHwZEfP0MYDwh79NiInQpSZRDY2e9OrXDgZ30v+X7
cUfhpP964qxvt5QeCd6VzFKCUsJeadsxaAVdrYOeFRqzoQKpytkS6Jt6ysvOfpGF
rZ7ogV0XdlcYe2Scn7ptp35qcgk1lhN90bSq09M4NjO1tH7gP5FTW3faytAAda7O
d/HWRuvMZNNqFh6nIQLmfzcxSfhe8rkJEX3v1ij8o94z/5nB8bqV0TDMh/uzIzyb
ffCqGi52m/j3YsynUWeOLGHv6I+mofxeIdT7Sn/hfE63FWzLHljA+t3JhN+9gn1M
DQIDAQAB
-----END PUBLIC KEY-----
".

Definition keyPem : string :=
"-----BEGIN PUBLIC KEY-----
MIIBIjANBgkqhkiG9w0BAQEFAAOCAQ8AMIIBCgKCAQEAoLUWhs/7kVxZqJxJ1NEb
1sZWpdmd4NL/iMhVpZ3cBPYhHwZEfP0MYDwh79NiInQpSZRDY2e9OrXDgZ30v+X7
cUfhpP964qxvt5QeCd6VzFKCUsJeadsxaAVdrYOeFRqzoQKpytkS6Jt6ysvOfpGF
rZ7ogV0XdlcYe2Scn7ptp35qcgk1lhN90bSq09M4NjO1tH7gP5FTW3faytAAda7O
d/HWRuvMZNNqFh6nIQLmfzcxSfhe8rkJEX3v1ij8o94z/5nB8bqV0TDMh/uzIzyb
ffCqGi52m/j3YsynUWeOLGHv6I+mofxeIdT7Sn/hfE63FWzLHljA+t3JhN+9gn1M
DQIDAQAB
-----END PUBLIC KEY-----".

(** The modulus and exponent that the DER body of [keyPem] encodes. *)
Definition key : Rsa.PublicKey :=
  {| Rsa.modulus := 0xa0b51686cffb915c59a89c49d4d11bd6c656a5d99de0d2ff88c855a59ddc04f6211f06447cfd0c603c21efd3622274294994436367bd3ab5c3819df4bfe5fb7147e1a4ff7ae2ac6fb7941e09de95cc528252c25e69db3168055dad839e151ab3a102a9cad912e89b7acacbce7e9185ad9ee8815d177657187b649c9fba6da77e6a72093596137dd1b4aad3d3383633b5b47ee03f91535b77dacad00075aece77f1d646ebcc64d36a161ea72102e67f373149f85ef2b909117defd628fca3de33ff99c1f1ba95d130cc87fbb3233c9b7df0aa1a2e769bf8f762cca751678e2c61efe88fa6a1fc5e21d4fb4a7fe17c4eb7156ccb1e58c0faddc984dfbd827d4c0d;
     Rsa.publicExponent := 65537 |}.

(** A decoder that knows this one key, and a padding source that
    always draws [0xff]. *)
Definition crypto : NodeCrypto :=
  {| createPublicKey := fun pem => if String.eqb pem keyPem then Some key else None;
     randomOctet := fun _ => xff |}.

Definition keyPath : string := "/app/tests/test_public_key.pem".

Definition files : gmap string Fs.Node := {[ keyPath := Fs.File keyText ]}.

Definition encryptor : CardEncryptor.t := {| CardEncryptor.publicKeyPath := keyPath |}.

Definition card : CardFields :=
  {| pan := "4111111111111111"; expiryDate := "1225"; cvv := "123"; pin := "1234" |}.


(** A card whose JSON text is 260 bytes long. *)
Definition oversizedCard : CardFields :=
  {| pan := "4111111111111111411111111111111141111111111111114111111111111111411111111111111141111111111111114111111111111111411111111111111141111111111141111111111111114111111111111111411111111111111141111111111111111";
     expiryDate := "1225"; cvv := "123"; pin := "1234" |}.

(** A card whose JSON text is 195 bytes long. *)
Definition longCard : CardFields :=
  {| pan := "41111111111111114111111111111111411111111111111141111111111111114111111111111111411111111111111141111111111111114111111111111111411111111111";
     expiryDate := "1225"; cvv := "123"; pin := "1234" |}.

(** A network on which every request is answered 404 with an
    [errorMessage], and the two clients built on it. *)
Definition notFound : AxiosModel.Network :=
  fun _ _ _ _ =>
    AxiosModel.Responded
      {| status := 404; data := JObj [("errorMessage", JStr "Transaction not found")] |}.

(** A network that never answers. *)
Definition unreachable : AxiosModel.Network :=
  fun _ _ _ _ => AxiosModel.NoResponse "connect ECONNREFUSED 127.0.0.1:443".

Definition client (net : AxiosModel.Network) : ErcasPay.t :=
  {| ErcasPay.baseURL := "https://api.merchant.staging.ercaspay.com";
     ErcasPay.secretKey := "sk";
     ErcasPay.client :=
       AxiosModel.create net
         {| cfg_baseURL := "https://api.merchant.staging.ercaspay.com";
            cfg_headers := clientHeaders "sk";
            cfg_httpsAgent := None |} |}.

Definition clientSsl (net : AxiosModel.Network) : ErcasPaySsl.t :=
  let config := {| cfg_baseURL := "https://api.merchant.staging.ercaspay.com";
                   cfg_headers := clientHeaders "sk";
                   cfg_httpsAgent := None |} in
  {| ErcasPaySsl.baseURL := "https://api.merchant.staging.ercaspay.com";
     ErcasPaySsl.secretKey := "sk";
     ErcasPaySsl.verifySsl := JBool true;
     ErcasPaySsl.clientConfig := config;
     ErcasPaySsl.client := AxiosModel.create net config |}.

(** An inbound request whose address is an IPv4-mapped IPv6 address. *)
Definition mappedRequest : Request :=
  {| ip := Some "::ffff:203.0.113.5";
     headers := Some {[ "user-agent" := "Mozilla/5.0" ]};
     connection := Some {| remoteAddress := Some "::ffff:203.0.113.5" |} |}.

(** An inbound request with no address and no headers of interest. *)
Definition bareRequest : Request :=
  {| ip := None; headers := Some ∅; connection := Some {| remoteAddress := None |} |}.



End Fixture.

(* ================================================================== *)
(** * The endpoint methods *)
(* ================================================================== *)

Definition is_log (e : Event) : bool := negb (is_http e).

(** The calls on the HTTP client among the events of a run. *)
Definition http_calls {A} (run : Run A) : list Event := filter is_http (fst run).

(** The lines handed to the logger among the events of a run. *)
Definition log_lines {A} (run : Run A) : list Event := filter is_log (fst run).

(** [response.responseBody] *)
Definition responseBody (response : JsVal) : Completion JsVal :=
  match getProp response "responseBody" with
  | Some v => Normal v
  | None => Throw (cannot_read (ToString response) "responseBody")
  end.

(** The public methods of the client revision whose errors carry
    [statusCode]; a reference is spliced into the path by a template
    literal. *)
Module Endpoints.

Definition initiateTransaction (this : ErcasPay.t) (data : JsVal) : Run JsVal :=
  emit (Log LogDebug "Initiating payment transaction" JUndefined) ;;
  response ← ErcasPay.makeRequest this "/api/v1/payment/initiate" (JStr "POST") data;
  emit (Log LogDebug "Payment transaction initiated successfully"
            (JObj [("response", response)])) ;;
  mret response.

Definition verifyTransaction (this : ErcasPay.t) (transactionRef : JsVal) : Run JsVal :=
  emit (Log LogDebug "Verifying transaction" (JObj [("transactionRef", transactionRef)])) ;;
  response ← ErcasPay.makeRequest this
               ("/api/v1/payment/transaction/verify/" +:+ ToString transactionRef)
               (JStr "GET") JUndefined;
  emit (Log LogDebug "Transaction verification completed"
            (JObj [("response", response)])) ;;
  mret response.

Definition initiateBankTransfer (this : ErcasPay.t) (transactionRef : JsVal) : Run JsVal :=
  emit (Log LogDebug "Initiating bank transfer" (JObj [("transactionRef", transactionRef)])) ;;
  response ← ErcasPay.makeRequest this
               ("/api/v1/payment/bank-transfer/request-bank-account/"
                  +:+ ToString transactionRef)
               (JStr "GET") JUndefined;
  emit (Log LogDebug "Bank transfer initiated successfully"
            (JObj [("response", response)])) ;;
  mret response.

Definition initiateUssdTransaction (this : ErcasPay.t) (transactionRef bankName : JsVal)
  : Run JsVal :=
  emit (Log LogDebug "Initiating USSD transaction"
            (JObj [("transactionRef", transactionRef)])) ;;
  response ← ErcasPay.makeRequest this
               ("/api/v1/payment/ussd/request-ussd-code/" +:+ ToString transactionRef)
               (JStr "POST") (JObj [("bank_name", bankName)]);
  emit (Log LogDebug "USSD transaction initiated successfully"
            (JObj [("response", response)])) ;;
  mret response.

Definition getBankListForUssd (this : ErcasPay.t) : Run JsVal :=
  emit (Log LogDebug "Fetching USSD supported banks list" JUndefined) ;;
  response ← ErcasPay.makeRequest this "/api/v1/payment/ussd/supported-banks"
               (JStr "GET") JUndefined;
  banks ← lift (responseBody response);
  emit (Log LogDebug "Retrieved USSD supported banks" (JObj [("banks", banks)])) ;;
  mret response.

Definition fetchTransactionDetails (this : ErcasPay.t) (transactionRef : JsVal)
  : Run JsVal :=
  emit (Log LogDebug "Fetching transaction details"
            (JObj [("transactionRef", transactionRef)])) ;;
  response ← ErcasPay.makeRequest this
               ("/api/v1/payment/details/" +:+ ToString transactionRef)
               (JStr "GET") JUndefined;
  emit (Log LogDebug "Transaction details retrieved" (JObj [("response", response)])) ;;
  mret response.

Definition fetchTransactionStatus (this : ErcasPay.t)
    (transactionRef paymentReference paymentMethod : JsVal) : Run JsVal :=
  emit (Log LogDebug "Fetching transaction status"
            (JObj [("transactionRef", transactionRef)])) ;;
  response ← ErcasPay.makeRequest this
               ("/api/v1/payment/status/" +:+ ToString transactionRef)
               (JStr "POST")
               (JObj [("payment_method", paymentMethod); ("reference", paymentReference)]);
  emit (Log LogDebug "Transaction status retrieved" (JObj [("response", response)])) ;;
  mret response.

Definition cancelTransaction (this : ErcasPay.t) (transactionRef : JsVal) : Run JsVal :=
  emit (Log LogDebug "Cancelling transaction" (JObj [("transactionRef", transactionRef)])) ;;
  response ← ErcasPay.makeRequest this
               ("/api/v1/payment/cancel/" +:+ ToString transactionRef)
               (JStr "GET") JUndefined;
  emit (Log LogDebug "Transaction cancelled successfully"
            (JObj [("response", response)])) ;;
  mret response.

Definition submitCardOTP (this : ErcasPay.t) (transactionRef paymentReference otp : JsVal)
  : Run JsVal :=
  emit (Log LogDebug "Submitting card OTP" (JObj [("transactionRef", transactionRef)])) ;;
  response ← ErcasPay.makeRequest this
               ("/api/v1/payment/cards/otp/submit/" +:+ ToString transactionRef)
               (JStr "POST")
               (JObj [("otp", otp); ("gatewayReference", paymentReference)]);
  emit (Log LogDebug "OTP submission completed" (JObj [("response", response)])) ;;
  mret response.

Definition resendCardOTP (this : ErcasPay.t) (transactionRef paymentReference : JsVal)
  : Run JsVal :=
  emit (Log LogDebug "Requesting OTP resend" (JObj [("transactionRef", transactionRef)])) ;;
  response ← ErcasPay.makeRequest this
               ("/api/v1/payment/cards/otp/resend/" +:+ ToString transactionRef)
               (JStr "POST") (JObj [("gatewayReference", paymentReference)]);
  emit (Log LogDebug "OTP resend completed" (JObj [("response", response)])) ;;
  mret response.

Definition getCardDetails (this : ErcasPay.t) (transactionRef : JsVal) : Run JsVal :=
  emit (Log LogDebug "Fetching saved card details"
            (JObj [("transactionRef", transactionRef)])) ;;
  response ← ErcasPay.makeRequest this
               ("/api/v1/payment/cards/details/" +:+ ToString transactionRef)
               (JStr "GET") JUndefined;
  emit (Log LogDebug "Card details retrieved successfully"
            (JObj [("response", response)])) ;;
  mret response.

Definition verifyCardTransaction (this : ErcasPay.t) (transactionRef : JsVal) : Run JsVal :=
  emit (Log LogDebug "Verifying card transaction"
            (JObj [("transactionRef", transactionRef)])) ;;
  response ← ErcasPay.makeRequest this "/api/v1/payment/cards/transaction/verify"
               (JStr "POST") (JObj [("reference", transactionRef)]);
  emit (Log LogDebug "Transaction verification completed"
            (JObj [("response", response)])) ;;
  mret response.

End Endpoints.

(** [submitCardOTP] of the client revision that takes [verifySsl]. *)
Module EndpointsSsl.

Definition submitCardOTP (this : ErcasPaySsl.t)
    (transactionRef paymentReference otp : JsVal) : Run JsVal :=
  emit (Log LogInfo "Submitting card OTP" (JObj [("transactionRef", transactionRef)])) ;;
  response ← ErcasPaySsl.makeRequest this
               ("/api/v1/payment/cards/otp/submit/" +:+ ToString transactionRef)
               (JStr "POST")
               (JObj [("otp", otp); ("gatewayReference", paymentReference)]);
  emit (Log LogInfo "OTP submission completed" (JObj [("response", response)])) ;;
  mret response.

End EndpointsSsl.

(** What a row of the endpoint table says of a method of the client
    [this]: the method makes its one call on [verb] with [path] and
    [body]; it returns the data of the response when the call
    resolves and throws the mapped error when it is rejected; and it
    fails without a call when the client has no such function. *)
Definition follows_row (this : ErcasPay.t) (run : Run JsVal)
    (verb path : string) (body : JsVal) : Prop :=
  (∀ f r, ErcasPay.client this verb = Some f → f path body = Resolved r →
          snd run = Normal (data r) ∧ http_calls run = [HttpCall verb path body])
  ∧ (∀ f e, ErcasPay.client this verb = Some f → f path body = Rejected e →
            snd run = Throw (mapped path e) ∧ http_calls run = [HttpCall verb path body])
  ∧ (ErcasPay.client this verb = None →
     is_normal (snd run) = false ∧ http_calls run = []).

(** The endpoint table of the gateway: operation, verb, path and body. *)
Definition endpointTable (this : ErcasPay.t)
    (data transactionRef paymentReference paymentMethod otp bankName : JsVal)
  : list (Run JsVal * (string * string * JsVal)) :=
  let ref := ToString transactionRef in
  [ (Endpoints.initiateTransaction this data,
     ("post", "/api/v1/payment/initiate", defaulted data (JObj [])));
    (Endpoints.verifyTransaction this transactionRef,
     ("get", "/api/v1/payment/transaction/verify/" +:+ ref, JObj []));
    (Endpoints.initiateBankTransfer this transactionRef,
     ("get", "/api/v1/payment/bank-transfer/request-bank-account/" +:+ ref, JObj []));
    (Endpoints.initiateUssdTransaction this transactionRef bankName,
     ("post", "/api/v1/payment/ussd/request-ussd-code/" +:+ ref,
      JObj [("bank_name", bankName)]));
    (Endpoints.fetchTransactionDetails this transactionRef,
     ("get", "/api/v1/payment/details/" +:+ ref, JObj []));
    (Endpoints.fetchTransactionStatus this transactionRef paymentReference paymentMethod,
     ("post", "/api/v1/payment/status/" +:+ ref,
      JObj [("payment_method", paymentMethod); ("reference", paymentReference)]));
    (Endpoints.cancelTransaction this transactionRef,
     ("get", "/api/v1/payment/cancel/" +:+ ref, JObj []));
    (Endpoints.submitCardOTP this transactionRef paymentReference otp,
     ("post", "/api/v1/payment/cards/otp/submit/" +:+ ref,
      JObj [("otp", otp); ("gatewayReference", paymentReference)]));
    (Endpoints.resendCardOTP this transactionRef paymentReference,
     ("post", "/api/v1/payment/cards/otp/resend/" +:+ ref,
      JObj [("gatewayReference", paymentReference)]));
    (Endpoints.getCardDetails this transactionRef,
     ("get", "/api/v1/payment/cards/details/" +:+ ref, JObj []));
    (Endpoints.verifyCardTransaction this transactionRef,
     ("post", "/api/v1/payment/cards/transaction/verify",
      JObj [("reference", transactionRef)])) ].

(** The address [Device.fromRequest] starts from:
    [request.ip || request.headers['x-forwarded-for'] || '127.0.0.1'],
    for a request whose headers are [h]. *)
Definition resolvedAddress (request : Request) (h : gmap string string) : string :=
  default (str_or (h !! "x-forwarded-for") "127.0.0.1") (nonempty (ip request)).

(** The same request with its headers replaced. *)
Definition withHeaders (request : Request) (h : gmap string string) : Request :=
  {| ip := ip request; headers := Some h; connection := connection request |}.

(** A client whose [post] resolves with a body and whose other
    properties are not functions, and one that answers every verb
    with a JSON [null] body. *)
Module Fixture2.

Definition accepted : AxiosResponse :=
  {| status := 200; data := JObj [("requestSuccessful", JBool true)] |}.

Definition accepting : AxiosModel.Network := fun _ _ _ _ => AxiosModel.Responded accepted.

Definition nullBody : AxiosModel.Network :=
  fun _ _ _ _ => AxiosModel.Responded {| status := 200; data := JNull |}.

Definition host : Host :=
  {| dirname := "/app/src";
     files := {[ "/app/src/key/rsa_public_key.pub" := Fs.File Fixture.keyText ]};
     crypto := Fixture.crypto |}.


(** A file system in which the key path names a directory. *)
Definition directoryAtKeyPath : gmap string Fs.Node := {[ Fixture.keyPath := Fs.Unreadable ]}.

(** What [JSON.stringify] throws on a BigInt. *)
Definition bigIntError : JsError :=
  newError TypeError "Do not know how to serialize a BigInt".

End Fixture2.

(** The key of the test suite in the form marked RSA (PKCS#1): the
    same modulus and exponent, without the algorithm identifier that
    the generic form puts in front of them.  Node's decoder accepts a
    key in either form. *)
Module FixtureRsa.

Definition body : string :=
"
MIIBCgKCAQEAoLUWhs/7kVxZqJxJ1NEb1sZWpdmd4NL/iMhVpZ3cBPYhHwZEfP0M
YDwh79NiInQpSZRDY2e9OrXDgZ30v+X7cUfhpP964qxvt5QeCd6VzFKCUsJeadsx
aAVdrYOeFRqzoQKpytkS6Jt6ysvOfpGFrZ7ogV0XdlcYe2Scn7ptp35qcgk1lhN9
0bSq09M4NjO1tH7gP5FTW3faytAAda7Od/HWRuvMZNNqFh6nIQLmfzcxSfhe8rkJ
EX3v1ij8o94z/5nB8bqV0TDMh/uzIzybffCqGi52m/j3YsynUWeOLGHv6I+mofxe
IdT7Sn/hfE63FWzLHljA+t3JhN+9gn1MDQIDAQAB
".

Definition keyText : string := Pem.RSA_HEADER +:+ body +:+ Pem.RSA_FOOTER.

(** A decoder that knows the key of the test suite in both forms and
    nothing else. *)
Definition crypto : NodeCrypto :=
  {| createPublicKey := fun pem =>
       if String.eqb pem Fixture.keyPem || String.eqb pem keyText
       then Some Fixture.key else None;
     randomOctet := fun _ => xff |}.

Definition keyPath : string := "/app/src/key/rsa_public_key.pub".

Definition files : gmap string Fs.Node := {[ keyPath := Fs.File keyText ]}.

Definition encryptor : CardEncryptor.t := {| CardEncryptor.publicKeyPath := keyPath |}.

End FixtureRsa.

(* ================================================================== *)
(** * Facts about the string and byte operations *)
(* ================================================================== *)

Section ListBy3.
Context {A : Type} (P : list A → Prop).
Hypothesis H0 : P [].
Hypothesis H1 : ∀ a, P [a].
Hypothesis H2 : ∀ a b, P [a; b].
Hypothesis H3 : ∀ a b c l, P l → P (a :: b :: c :: l).

(** Induction that peels three elements at a time, the way
    [Base64.encode] consumes its input. *)
Lemma list_ind_by3 : ∀ l, P l.
Proof using H0 H1 H2 H3.
  assert (Hall : ∀ l, P l ∧ (∀ a, P (a :: l)) ∧ (∀ a b, P (a :: b :: l))).
  { induction l as [|x l (IHa & IHb & IHc)]; [by auto|].
    repeat split; auto. }
  intros l. apply Hall.
Qed.
End ListBy3.

Lemma list_byte_of_string_length (s : string) :
  length (list_byte_of_string s) = String.length s.
Proof.
  induction s as [|c s IH]; [done|].
  cbn [String.length]. rewrite <- IH. reflexivity.
Qed.

Lemma string_length_app (s t : string) :
  String.length (s +:+ t) = String.length s + String.length t.
Proof. induction s as [|c s IH]; simpl; [done|]. by rewrite IH. Qed.

Lemma string_app_assoc (s t u : string) : (s +:+ t) +:+ u = s +:+ (t +:+ u).
Proof.
  induction s as [|c s IH]; [done|].
  change (String c ((s +:+ t) +:+ u) = String c (s +:+ (t +:+ u))). by rewrite IH.
Qed.

Lemma all_chars_app (p : ascii → bool) (s t : string) :
  all_chars p (s +:+ t) = all_chars p s && all_chars p t.
Proof.
  induction s as [|c s IH]; [done|].
  change (p c && all_chars p (s +:+ t) = p c && all_chars p s && all_chars p t).
  by rewrite IH, andb_assoc.
Qed.

(** ** [trim] and [replace] *)

Module StringFacts.

Ltac bool_to_prop :=
  repeat match goal with
    | H : _ && _ = true |- _ => apply andb_true_iff in H; destruct H
    | H : _ || _ = true |- _ => apply orb_true_iff in H; destruct H
    | H : (_ =? _)%N = true |- _ => apply N.eqb_eq in H
    | H : (_ <=? _)%N = true |- _ => apply N.leb_le in H
    end.

Ltac prove_ws_byte :=
  unfold ws_byte; cbv zeta;
  rewrite ?orb_true_iff, ?andb_true_iff, ?N.eqb_eq, ?N.leb_le; lia.

Lemma ws1_byte a : ws1 a = true → ws_byte a = true.
Proof. unfold ws1. cbv zeta. intros H. bool_to_prop; prove_ws_byte. Qed.

Lemma ws2_bytes a b : ws2 a b = true → ws_byte a = true ∧ ws_byte b = true.
Proof. unfold ws2. intros H. bool_to_prop. split; prove_ws_byte. Qed.

Lemma ws3_bytes a b c :
  ws3 a b c = true → ws_byte a = true ∧ ws_byte b = true ∧ ws_byte c = true.
Proof.
  unfold ws3. cbv zeta beta iota. intros H. bool_to_prop.
  all: repeat split; prove_ws_byte.
Qed.

(** Only white-space bytes are trimmed away. *)
Lemma trimStart_blank_bytes (s : string) :
  trimStart s = "" → all_chars ws_byte s = true.
Proof.
  remember (String.length s) as n eqn:Hn.
  assert (Hle : String.length s ≤ n) by lia. clear Hn.
  revert s Hle. induction n as [|n IH]; intros s Hle.
  { destruct s; [done|]. cbn in Hle. lia. }
  destruct s as [|a r1]; [done|].
  cbn [String.length] in Hle. cbn [trimStart].
  destruct (ws1 a) eqn:H1.
  { intros Ht. cbn [all_chars]. rewrite (ws1_byte _ H1), (IH r1); [done|lia|done]. }
  destruct r1 as [|b r2]; [discriminate|].
  cbn [String.length] in Hle.
  destruct (ws2 a b) eqn:H2.
  { intros Ht. destruct (ws2_bytes _ _ H2) as [Ha Hb].
    cbn [all_chars]. rewrite Ha, Hb, (IH r2); [done|lia|done]. }
  destruct r2 as [|c r3]; [discriminate|].
  cbn [String.length] in Hle.
  destruct (ws3 a b c) eqn:H3; [|discriminate].
  intros Ht. destruct (ws3_bytes _ _ _ H3) as (Ha & Hb & Hc).
  cbn [all_chars]. rewrite Ha, Hb, Hc, (IH r3); [done|lia|done].
Qed.

Lemma blank_app_false (s t : string) :
  all_chars ws_byte t = false → blank (s +:+ t) = false.
Proof.
  intros Ht. unfold blank.
  destruct (String.eqb_spec (trimStart (s +:+ t)) "") as [Hb|]; [|done].
  apply trimStart_blank_bytes in Hb.
  rewrite all_chars_app, Ht, andb_false_r in Hb. discriminate.
Qed.

(** Nothing is trimmed from the end past a byte that is not white
    space. *)
Lemma trimEnd_app (s t : string) :
  all_chars ws_byte t = false → trimEnd (s +:+ t) = s +:+ trimEnd t.
Proof.
  intros Ht. induction s as [|a s IH]; [done|].
  change (String a s +:+ t) with (String a (s +:+ t)).
  cbn [trimEnd].
  change (String a (s +:+ t)) with (String a s +:+ t).
  rewrite (blank_app_false _ _ Ht), IH. reflexivity.
Qed.

(** A text without the pattern is left as it is. *)
Lemma replace_absent (pat rep s : string) :
  includes pat s = false → replace pat rep s = s.
Proof.
  induction s as [|c s IH]; cbn [includes replace]; intros H;
    apply orb_false_iff in H; destruct H as [Hp Hrest]; rewrite Hp; [done|].
  by rewrite IH.
Qed.

Lemma replace_rsa_header (rest : string) :
  replace "RSA" "" (Pem.RSA_HEADER +:+ rest) = "-----BEGIN  PUBLIC KEY-----" +:+ rest.
Proof. reflexivity. Qed.

(** A key text in which the three letters do not occur is only
    trimmed. *)
Lemma normalizeKey_without_marker (text : string) :
  includes "RSA" text = false → CardEncryptor.normalizeKey text = trim text.
Proof.
  intros H. unfold CardEncryptor.normalizeKey. by rewrite replace_absent.
Qed.

(** On a text in the form marked RSA only the marker of the header is
    removed. *)
Lemma normalizeKey_rsa_marked (body : string) :
  CardEncryptor.normalizeKey (Pem.RSA_HEADER +:+ body +:+ Pem.RSA_FOOTER)
  = "-----BEGIN  PUBLIC KEY-----" +:+ body +:+ Pem.RSA_FOOTER.
Proof.
  unfold CardEncryptor.normalizeKey. rewrite replace_rsa_header. unfold trim.
  change (trimStart ("-----BEGIN  PUBLIC KEY-----" +:+ body +:+ Pem.RSA_FOOTER))
    with ("-----BEGIN  PUBLIC KEY-----" +:+ body +:+ Pem.RSA_FOOTER).
  rewrite <- string_app_assoc.
  rewrite trimEnd_app by reflexivity.
  reflexivity.
Qed.

End StringFacts.

Module Base64Facts.
Import Base64.

Lemma table_length : length table = 64.
Proof. reflexivity. Qed.

Lemma table_in_class : forallb in_class table = true.
Proof. vm_compute. reflexivity. Qed.

Lemma pad_in_class : in_class pad = true.
Proof. reflexivity. Qed.

Lemma sextet_in_class (n k : N) : in_class (sextet n k) = true.
Proof.
  unfold sextet.
  eapply forallb_forall; [exact table_in_class|].
  apply nth_In. rewrite table_length.
  assert ((n / 64 ^ k) mod 64 < 64)%N by (apply N.mod_upper_bound; lia).
  lia.
Qed.

Lemma encode_length (bs : list byte) :
  String.length (encode bs) = 4 * ((length bs + 2) / 3).
Proof.
  induction bs as [| a | a b | a b c l IH] using list_ind_by3; try reflexivity.
  cbn [encode String.length length]. rewrite IH.
  replace (S (S (S (length l))) + 2) with ((length l + 2) + 1 * 3) by lia.
  rewrite Nat.div_add by lia. lia.
Qed.

Lemma encode_all_in_class (bs : list byte) :
  all_chars in_class (encode bs) = true.
Proof.
  induction bs as [| a | a b | a b c l IH] using list_ind_by3;
    cbn [encode all_chars];
    rewrite ?sextet_in_class, ?pad_in_class, ?IH; reflexivity.
Qed.

Lemma encode_nonempty (bs : list byte) : bs ≠ [] → encode bs ≠ "".
Proof.
  destruct bs as [|a [|b [|c l]]]; [done| | |]; intros _; discriminate.
Qed.

Lemma encode_matches_class (bs : list byte) :
  bs ≠ [] → matches_class (encode bs) = true.
Proof.
  intros Hne. unfold matches_class.
  rewrite encode_all_in_class, andb_true_r.
  apply negb_true_iff, String.eqb_neq, encode_nonempty, Hne.
Qed.

End Base64Facts.

Module RsaFacts.
Import Rsa.

Lemma digits256_length (x : Z) (len : nat) : length (digits256 x len) = len.
Proof. revert x. induction len as [|len IH]; intros x; cbn; [done|]. by rewrite IH. Qed.

Lemma I2OSP_length (x : Z) (len : nat) : length (I2OSP x len) = len.
Proof. unfold I2OSP. by rewrite length_rev, digits256_length. Qed.

(** The ciphertext is as long as the modulus, whatever the message. *)
Lemma ciphertext_length rnd key msg : length (ciphertext rnd key msg) = octets key.
Proof. apply I2OSP_length. Qed.

Lemma octets_of_bits key (b : Z) : bits key = b → octets key = Z.to_nat ((b + 7) / 8).
Proof. unfold octets. by intros ->. Qed.

Lemma octets_2048 key : bits key = 2048%Z → octets key = 256.
Proof. intros H. by rewrite (octets_of_bits _ _ H). Qed.

(** [RSAEP] is modular exponentiation. *)
Lemma RSAEP_spec key m :
  modulus key ≠ 0%Z → RSAEP key m = (m ^ publicExponent key mod modulus key)%Z.
Proof. intros Hn. unfold RSAEP. by apply Zpow_mod_correct. Qed.

Lemma encrypt_fits rnd key msg :
  length msg + 11 ≤ octets key → encrypt rnd key msg = Some (ciphertext rnd key msg).
Proof.
  intros Hfit. unfold encrypt, PADDING_SIZE.
  destruct (Nat.ltb_spec (octets key) (length msg + 11)); [lia|done].
Qed.

Lemma encrypt_too_long rnd key msg :
  octets key < length msg + 11 → encrypt rnd key msg = None.
Proof.
  intros Hlong. unfold encrypt, PADDING_SIZE.
  destruct (Nat.ltb_spec (octets key) (length msg + 11)); [done|lia].
Qed.

End RsaFacts.

(* ================================================================== *)
(** * CardEncryptor: construction and encryption *)
(* ================================================================== *)

Module EncryptorFacts.
Import CardEncryptor.

Lemma stringify_card (c : CardFields) : stringify (cardObject c) = Some (cardJson c).
Proof. reflexivity. Qed.


Section WithKey.
Context (crypto : NodeCrypto) (fs : gmap string Fs.Node) (this : t).
Context (text : string) (key : Rsa.PublicKey).
Hypothesis Hfile : fs !! publicKeyPath this = Some (Fs.File text).
Hypothesis Hkey : createPublicKey crypto (normalizeKey text) = Some key.

Lemma encrypt_normal (params : JsVal) (json : string) :
  stringify params = Some json →
  String.length json + 11 ≤ Rsa.octets key →
  encrypt crypto fs this params =
    Normal (Base64.encode
              (Rsa.ciphertext (randomOctet crypto) key (list_byte_of_string json))).
Proof using Hfile Hkey.
  intros Hjson Hfit. unfold encrypt, encrypt_given, Fs.readFileSync, publicEncrypt.
  rewrite Hfile, Hjson, Hkey, RsaFacts.encrypt_fits; [done|].
  by rewrite list_byte_of_string_length.
Qed.

Lemma encrypt_data_too_large (params : JsVal) (json : string) :
  stringify params = Some json →
  Rsa.octets key < String.length json + 11 →
  encrypt crypto fs this params =
    Throw (newError Error ("Encryption failed: " +:+ ERR_DATA_TOO_LARGE)).
Proof using Hfile Hkey.
  intros Hjson Hlong. unfold encrypt, encrypt_given, Fs.readFileSync, publicEncrypt.
  rewrite Hfile, Hjson, Hkey, RsaFacts.encrypt_too_long; [done|].
  by rewrite list_byte_of_string_length.
Qed.
End WithKey.

(** ** Cards that need no escaping *)

Lemma json_escape_unescaped (c : ascii) : unescaped c = true → json_escape c = String c "".
Proof.
  unfold unescaped, json_escape. cbv zeta. intros H.
  apply andb_true_iff in H as [H H92]. apply andb_true_iff in H as [H32 H34].
  apply negb_true_iff in H34, H92. apply N.leb_le in H32.
  rewrite H34, H92.
  repeat match goal with
    | |- context [(N_of_ascii c =? ?k)%N] =>
        destruct (N.eqb_spec (N_of_ascii c) k); [lia|]
    end.
  destruct (N.ltb_spec (N_of_ascii c) 32); [lia|reflexivity].
Qed.

Lemma json_escape_all_unescaped (s : string) :
  all_chars unescaped s = true → json_escape_all s = s.
Proof.
  induction s as [|c s IH]; [done|]. cbn [all_chars json_escape_all]. intros H.
  apply andb_true_iff in H as [Hc Hs]. by rewrite (json_escape_unescaped c Hc), IH.
Qed.

Lemma member_length (k v : string) :
  all_chars unescaped k = true → all_chars unescaped v = true →
  String.length (member k v) = String.length k + String.length v + 5.
Proof.
  intros Hk Hv. unfold member, json_quote.
  rewrite (json_escape_all_unescaped k Hk), (json_escape_all_unescaped v Hv).
  rewrite !string_length_app. cbn [String.length]. lia.
Qed.

(** The JSON text of a card whose fields need no escaping is 44 bytes
    longer than the fields taken together. *)
Lemma cardJson_length (c : CardFields) :
  all_chars unescaped (pan c) = true → all_chars unescaped (expiryDate c) = true →
  all_chars unescaped (cvv c) = true → all_chars unescaped (pin c) = true →
  String.length (cardJson c)
  = 44 + String.length (cvv c) + String.length (pin c)
    + String.length (expiryDate c) + String.length (pan c).
Proof.
  intros Hpan Hexp Hcvv Hpin. unfold cardJson, join. cbn [String.concat].
  rewrite !string_length_app.
  rewrite !member_length by (assumption || reflexivity).
  cbn [String.length]. lia.
Qed.

(** A card of printable fields -- a number of at most 19 characters,
    an expiry date of 4, a CVV of at most 4 and a PIN of at most 12 --
    is well formed for every key of 664 bits or more. *)
Lemma printable_card_well_formed (k : nat) (c : CardFields) :
  94 ≤ k →
  all_chars unescaped (pan c) = true → all_chars unescaped (expiryDate c) = true →
  all_chars unescaped (cvv c) = true → all_chars unescaped (pin c) = true →
  pan c ≠ "" → expiryDate c ≠ "" → cvv c ≠ "" → pin c ≠ "" →
  String.length (pan c) ≤ 19 → String.length (expiryDate c) = 4 →
  String.length (cvv c) ≤ 4 → String.length (pin c) ≤ 12 →
  well_formed k c.
Proof.
  intros Hk Hpan Hexp Hcvv Hpin Npan Nexp Ncvv Npin Lpan Lexp Lcvv Lpin.
  repeat split; try assumption.
  rewrite (cardJson_length c Hpan Hexp Hcvv Hpin). lia.
Qed.

(** The fixture key file is read, normalised and decoded to the
    fixture key. *)
Lemma fixture_file :
  Fixture.files !! publicKeyPath Fixture.encryptor = Some (Fs.File Fixture.keyText).
Proof. reflexivity. Qed.

Lemma fixture_key :
  createPublicKey Fixture.crypto (normalizeKey Fixture.keyText) = Some Fixture.key.
Proof. vm_compute. reflexivity. Qed.

Lemma fixture_bits : Rsa.bits Fixture.key = 2048%Z.
Proof. vm_compute. reflexivity. Qed.

Lemma fixture_octets : Rsa.octets Fixture.key = 256.
Proof. apply RsaFacts.octets_2048, fixture_bits. Qed.

End EncryptorFacts.

(** When the text of the key file, normalised, is one the decoder
    accepts, a well-formed card record is encrypted: [encrypt] returns
    the standard base64 text of the RSAES-PKCS1-v1_5 encryption of the
    UTF-8 JSON text of the record.  The ciphertext has as many bytes
    as the modulus, so the result has [4 * ceil(k / 3)] characters,
    all in [[A-Za-z0-9+/=]], and is not empty; for a 2048-bit key that
    is 256 bytes and 344 characters. *)
Lemma encrypt_card_payload
    (crypto : NodeCrypto) (fs : gmap string Fs.Node) (this : CardEncryptor.t)
    (text : string) (key : Rsa.PublicKey) (c : CardFields) :
  fs !! CardEncryptor.publicKeyPath this = Some (Fs.File text) →
  createPublicKey crypto (CardEncryptor.normalizeKey text) = Some key →
  well_formed (Rsa.octets key) c →
  let k := Rsa.octets key in
  let msg := list_byte_of_string (cardJson c) in
  let ps := List.map (randomOctet crypto) (seq 0 (k - length msg - 3)) in
  let encrypted := Rsa.I2OSP (Rsa.RSAEP key (Rsa.OS2IP (Rsa.EME ps msg))) k in
  stringify (cardObject c) = Some (cardJson c) ∧
  CardEncryptor.encrypt crypto fs this (cardObject c) = Normal (Base64.encode encrypted) ∧
  length encrypted = k ∧
  String.length (Base64.encode encrypted) = 4 * ((k + 2) / 3) ∧
  Base64.matches_class (Base64.encode encrypted) = true ∧
  (Rsa.bits key = 2048%Z →
   length encrypted = 256 ∧ String.length (Base64.encode encrypted) = 344).
Proof.
  intros Hfile Hkey (_ & _ & _ & _ & Hfit) k msg ps encrypted.
  assert (Hlen : length encrypted = k) by apply RsaFacts.I2OSP_length.
  assert (Hb64 : String.length (Base64.encode encrypted) = 4 * ((k + 2) / 3)).
  { by rewrite Base64Facts.encode_length, Hlen. }
  split; [reflexivity|].
  split.
  { exact (EncryptorFacts.encrypt_normal crypto fs this text key Hfile Hkey
             (cardObject c) (cardJson c) eq_refl Hfit). }
  split; [exact Hlen|]. split; [exact Hb64|]. split.
  { apply Base64Facts.encode_matches_class. intros Hnil.
    rewrite Hnil in Hlen. cbn in Hlen. subst k. lia. }
  intros Hbits. rewrite Hb64, Hlen. subst k.
  rewrite (RsaFacts.octets_2048 key Hbits). split; reflexivity.
Qed.

(** C1.  A valid key does not suffice for [encrypt] to return the
    ciphertext of a well-formed card record.  When the key file holds
    a key in the form marked RSA -- a text the decoder accepts as it
    is -- the normalisation removes the marker of the header only, the
    decoder rejects what is left, and [encrypt] throws
    [Encryption failed: ...] instead of returning a base64 text. *)
Theorem encrypt_rsa_marked_key_throws
    (crypto : NodeCrypto) (fs : gmap string Fs.Node) (this : CardEncryptor.t)
    (body : string) (key : Rsa.PublicKey) (c : CardFields) :
  fs !! CardEncryptor.publicKeyPath this
    = Some (Fs.File (Pem.RSA_HEADER +:+ body +:+ Pem.RSA_FOOTER)) →
  createPublicKey crypto (Pem.RSA_HEADER +:+ body +:+ Pem.RSA_FOOTER) = Some key →
  createPublicKey crypto ("-----BEGIN  PUBLIC KEY-----" +:+ body +:+ Pem.RSA_FOOTER) = None →
  well_formed (Rsa.octets key) c →
  (∃ cause,
     CardEncryptor.encrypt crypto fs this (cardObject c)
     = Throw (newError Error ("Encryption failed: " +:+ cause)))
  ∧ is_normal (CardEncryptor.encrypt crypto fs this (cardObject c)) = false.
Proof.
  intros Hfile _ Hreject _.
  assert (Henc : CardEncryptor.encrypt crypto fs this (cardObject c)
                 = Throw (newError Error ("Encryption failed: " +:+ ERR_UNSUPPORTED))).
  { unfold CardEncryptor.encrypt, CardEncryptor.encrypt_given, Fs.readFileSync, publicEncrypt.
    rewrite Hfile. cbv zeta.
    by rewrite StringFacts.normalizeKey_rsa_marked, Hreject. }
  split; [by eexists|]. by rewrite Henc.
Qed.

Lemma encrypt_rsa_marked_key_witness :
  createPublicKey FixtureRsa.crypto FixtureRsa.keyText = Some Fixture.key
  ∧ is_normal (CardEncryptor.encrypt FixtureRsa.crypto FixtureRsa.files FixtureRsa.encryptor
                 (cardObject Fixture.card)) = false.
Proof.
  assert (Hvalid : createPublicKey FixtureRsa.crypto FixtureRsa.keyText = Some Fixture.key)
    by (vm_compute; reflexivity).
  assert (Hreject : createPublicKey FixtureRsa.crypto
                      ("-----BEGIN  PUBLIC KEY-----" +:+ FixtureRsa.body +:+ Pem.RSA_FOOTER)
                    = None)
    by (vm_compute; reflexivity).
  assert (Hwf : well_formed (Rsa.octets Fixture.key) Fixture.card).
  { rewrite EncryptorFacts.fixture_octets.
    repeat split; try discriminate. vm_compute. lia. }
  split; [exact Hvalid|].
  exact (proj2 (encrypt_rsa_marked_key_throws
                  FixtureRsa.crypto FixtureRsa.files FixtureRsa.encryptor
                  FixtureRsa.body Fixture.key Fixture.card
                  eq_refl Hvalid Hreject Hwf)).
Defined.




(** C4.  When the JSON text is longer than [k - 11] bytes, [k] being
    the size of the modulus in bytes, [encrypt] throws an error whose
    message wraps the data-too-large failure of the RSA routine; no
    payload is returned.  For a 2048-bit key the limit [k - 11] is 245
    bytes. *)
Theorem encrypt_over_limit_fails
    (crypto : NodeCrypto) (fs : gmap string Fs.Node) (this : CardEncryptor.t)
    (text : string) (key : Rsa.PublicKey) (params : JsVal) (json : string) :
  fs !! CardEncryptor.publicKeyPath this = Some (Fs.File text) →
  createPublicKey crypto (CardEncryptor.normalizeKey text) = Some key →
  stringify params = Some json →
  Rsa.octets key - 11 < String.length json →
  CardEncryptor.encrypt crypto fs this params
    = Throw (newError Error ("Encryption failed: " +:+ ERR_DATA_TOO_LARGE))
  ∧ is_normal (CardEncryptor.encrypt crypto fs this params) = false
  ∧ (Rsa.bits key = 2048%Z → Rsa.octets key - 11 = 245).
Proof.
  intros Hfile Hkey Hjson Hlong.
  assert (Henc : CardEncryptor.encrypt crypto fs this params
                 = Throw (newError Error ("Encryption failed: " +:+ ERR_DATA_TOO_LARGE))).
  { apply (EncryptorFacts.encrypt_data_too_large crypto fs this text key Hfile Hkey
             params json Hjson). lia. }
  split; [exact Henc|]. split; [by rewrite Henc|].
  intros Hbits. by rewrite (RsaFacts.octets_2048 key Hbits).
Qed.

Lemma encrypt_over_limit_witness :
  CardEncryptor.encrypt Fixture.crypto Fixture.files Fixture.encryptor
    (cardObject Fixture.oversizedCard)
  = Throw (newError Error ("Encryption failed: " +:+ ERR_DATA_TOO_LARGE)).
Proof.
  refine (proj1 (encrypt_over_limit_fails
                   Fixture.crypto Fixture.files Fixture.encryptor
                   Fixture.keyText Fixture.key (cardObject Fixture.oversizedCard)
                   (cardJson Fixture.oversizedCard)
                   EncryptorFacts.fixture_file EncryptorFacts.fixture_key eq_refl _)).
  rewrite EncryptorFacts.fixture_octets. vm_compute. lia.
Defined.

(** C4, counterexample.  With a 2048-bit key, a card whose JSON text is
    195 bytes long -- more than 190 -- is encrypted without error. *)
Lemma encrypt_195_bytes_with_2048_bit_key_returns :
  Rsa.bits Fixture.key = 2048%Z ∧
  String.length (cardJson Fixture.longCard) = 195 ∧
  190 < String.length (cardJson Fixture.longCard) ∧
  ∃ payload,
    CardEncryptor.encrypt Fixture.crypto Fixture.files Fixture.encryptor
      (cardObject Fixture.longCard) = Normal payload.
Proof.
  split; [exact EncryptorFacts.fixture_bits|].
  split; [vm_compute; reflexivity|]. split; [vm_compute; lia|].
  eexists.
  eapply (EncryptorFacts.encrypt_normal _ _ _ _ _
            EncryptorFacts.fixture_file EncryptorFacts.fixture_key).
  - apply EncryptorFacts.stringify_card.
  - rewrite EncryptorFacts.fixture_octets. vm_compute. lia.
Qed.

(** C9.  Constructing a CardEncryptor with a path that does not exist
    throws [Public key file not found], and with a path that exists it
    returns an encryptor holding that path.  The check comes first in a
    card transaction too: with the key file missing the transaction
    fails with that error, whatever the crypto module would do, and
    without any call on the HTTP client. *)
Theorem constructor_fails_on_missing_key
    (fs : gmap string Fs.Node) (path : string) :
  (fs !! path = None →
   CardEncryptor.constructor fs path
     = Throw (newError Error ("Public key file not found: " +:+ path)))
  ∧ (is_Some (fs !! path) →
     CardEncryptor.constructor fs path
       = Normal {| CardEncryptor.publicKeyPath := path |})
  ∧ (∀ (host : Host) (this : ErcasPay.t) (p : CardCall),
       files host = fs → path = dirname host +:+ "/key/rsa_public_key.pub" →
       is_Some (headers (request p)) → fs !! path = None →
       snd (ErcasPay.initiateCardTransaction host this p)
         = Throw (newError Error ("Public key file not found: " +:+ path))
       ∧ filter is_http (fst (ErcasPay.initiateCardTransaction host this p)) = []).
Proof.
  assert (Hmissing : fs !! path = None →
            CardEncryptor.constructor fs path
              = Throw (newError Error ("Public key file not found: " +:+ path))).
  { intros Hnone. unfold CardEncryptor.constructor, Fs.existsSync.
    rewrite Hnone. rewrite bool_decide_eq_false_2; [done|].
    intros [x Hx]. discriminate. }
  split; [exact Hmissing|]. split.
  - intros Hsome. unfold CardEncryptor.constructor, Fs.existsSync.
    by rewrite bool_decide_eq_true_2.
  - intros host this p <- -> [h Hh] Hnone.
    unfold ErcasPay.initiateCardTransaction.
    rewrite (Hmissing Hnone).
    unfold PayerDeviceDto.fromRequest, Device.fromRequest, header.
    rewrite Hh. destruct (nonempty (ip (request p))); split; reflexivity.
Qed.

Lemma constructor_fails_on_missing_key_witness :
  CardEncryptor.constructor Fixture.files "/app/key/missing.pem"
    = Throw (newError Error "Public key file not found: /app/key/missing.pem")
  ∧ CardEncryptor.constructor Fixture.files Fixture.keyPath
    = Normal {| CardEncryptor.publicKeyPath := Fixture.keyPath |}.
Proof.
  split.
  - exact (proj1 (constructor_fails_on_missing_key Fixture.files "/app/key/missing.pem")
             eq_refl).
  - exact (proj1 (proj2 (constructor_fails_on_missing_key Fixture.files Fixture.keyPath))
             (ex_intro _ (Fs.File Fixture.keyText) eq_refl)).
Defined.

(** C3.  On a key text with the RSA-marked header and footer,
    the normalisation removes the first [RSA] only: the header is left
    with two spaces where the marker stood, the footer keeps its
    marker, and the text handed to the key decoder does not start with
    the generic header. *)
Theorem normalizeKey_rsa_marked_is_not_generic (body : string) :
  let text := Pem.RSA_HEADER +:+ body +:+ Pem.RSA_FOOTER in
  CardEncryptor.normalizeKey text
    = "-----BEGIN  PUBLIC KEY-----" +:+ body +:+ Pem.RSA_FOOTER
  ∧ String.prefix Pem.GENERIC_HEADER (CardEncryptor.normalizeKey text) = false.
Proof.
  cbv zeta.
  assert (Heq : CardEncryptor.normalizeKey
                  (Pem.RSA_HEADER +:+ body +:+ Pem.RSA_FOOTER)
                = "-----BEGIN  PUBLIC KEY-----" +:+ body +:+ Pem.RSA_FOOTER).
  { unfold CardEncryptor.normalizeKey. rewrite StringFacts.replace_rsa_header.
    unfold trim.
    replace (trimStart ("-----BEGIN  PUBLIC KEY-----" +:+ body +:+ Pem.RSA_FOOTER))
      with ("-----BEGIN  PUBLIC KEY-----" +:+ body +:+ Pem.RSA_FOOTER)
      by reflexivity.
    rewrite <- string_app_assoc.
    rewrite StringFacts.trimEnd_app by reflexivity.
    reflexivity. }
  split; [exact Heq|]. rewrite Heq. reflexivity.
Qed.

(* ================================================================== *)
(** * The dispatch primitive *)
(* ================================================================== *)

Module DispatchFacts.

Lemma truthy_str (s : string) : s ≠ "" → truthy (JStr s) = true.
Proof. intros Hs. cbn. by apply negb_true_iff, String.eqb_neq. Qed.

Lemma makeRequest_rejected (this : ErcasPay.t) (url verb : string) (body : JsVal) f e :
  verb ≠ "" →
  ErcasPay.client this (toLowerCase verb) = Some f →
  f url (defaulted body (JObj [])) = Rejected e →
  snd (ErcasPay.makeRequest this url (JStr verb) body) = Throw (mapped url e).
Proof.
  intros Hverb Hf Hrej. unfold ErcasPay.makeRequest, mapped.
  cbv zeta. rewrite (truthy_str _ Hverb).
  cbn [negb]. unfold try_catch, mbind, run_bind, lift, lowered, invoke.
  rewrite Hf. unfold mbind, run_bind, emit. rewrite Hrej.
  unfold throw. cbn [snd app]. destruct (response e); reflexivity.
Qed.

(** With the defaults of axios a response outside 2xx rejects the
    call and the error carries that response; a request without a
    response rejects it with an error that carries none. *)
Lemma settle_non_2xx (r : AxiosResponse) :
  AxiosModel.validateStatus (status r) = false →
  ∃ e, AxiosModel.settle (AxiosModel.Responded r) = Rejected e ∧ response e = Some r.
Proof. intros H. unfold AxiosModel.settle. rewrite H. eexists. split; reflexivity. Qed.

Lemma settle_no_response (reason : string) :
  ∃ e, AxiosModel.settle (AxiosModel.NoResponse reason) = Rejected e ∧ response e = None.
Proof. eexists. split; reflexivity. Qed.

(** A verb the client has no function for, or a verb that is not a
    string, ends in the no-response branch as well. *)
Lemma makeRequest_not_callable (this : ErcasPay.t) (url verb : string) (body : JsVal) :
  verb ≠ "" →
  ErcasPay.client this (toLowerCase verb) = None →
  ∃ err, snd (ErcasPay.makeRequest this url (JStr verb) body) = Throw err
         ∧ statusCode err = JNum 500 ∧ responseData err = JNull
         ∧ filter is_http (fst (ErcasPay.makeRequest this url (JStr verb) body)) = [].
Proof.
  intros Hverb Hf. unfold ErcasPay.makeRequest. cbv zeta.
  rewrite (truthy_str _ Hverb). cbn [negb].
  unfold try_catch, mbind, run_bind, lift, lowered, invoke. rewrite Hf.
  eexists. repeat split; reflexivity.
Qed.

(** The same on a client built with the defaults of axios: a response
    outside 2xx to one of the verb helpers comes back as an error with
    the status and body of that response. *)
Lemma makeRequest_non_2xx (net : AxiosModel.Network) (config : AxiosConfig)
    (this : ErcasPay.t) (url verb : string) (body : JsVal) (r : AxiosResponse) :
  ErcasPay.client this = AxiosModel.create net config →
  verb ≠ "" →
  existsb (String.eqb (toLowerCase verb)) AxiosModel.verbs = true →
  net config (toLowerCase verb) url (defaulted body (JObj [])) = AxiosModel.Responded r →
  AxiosModel.validateStatus (status r) = false →
  ∃ err, snd (ErcasPay.makeRequest this url (JStr verb) body) = Throw err
         ∧ statusCode err = JNum (status r) ∧ responseData err = data r.
Proof.
  intros Hclient Hverb Hin Hnet Hstatus.
  destruct (settle_non_2xx r Hstatus) as (e & He & Hresp).
  exists (mapped url e). split.
  - apply (makeRequest_rejected this url verb body
             (fun u b => AxiosModel.settle (net config (toLowerCase verb) u b)) e Hverb).
    + rewrite Hclient. unfold AxiosModel.create. by rewrite Hin.
    + by rewrite Hnet.
  - unfold mapped. rewrite Hresp. split; reflexivity.
Qed.

End DispatchFacts.

(** C5.  In the client whose errors carry [statusCode] and
    [responseData]: when the call on the HTTP client is rejected with a
    response (which is what axios does for every status outside 2xx),
    the error raised carries the status and the body of that response;
    its message is the [errorMessage] of the body when that is a
    non-empty string, and the generic message ending in the request
    path when the body has no truthy [errorMessage].  When the call is
    rejected without a response, the error carries status 500 and a
    [null] body. *)
Theorem makeRequest_maps_rejections
    (this : ErcasPay.t) (url verb : string) (body : JsVal)
    (f : string → JsVal → AxiosResult) (e : JsError) :
  verb ≠ "" →
  ErcasPay.client this (toLowerCase verb) = Some f →
  f url (defaulted body (JObj [])) = Rejected e →
  ∃ err,
    snd (ErcasPay.makeRequest this url (JStr verb) body) = Throw err ∧
    (∀ r, response e = Some r →
       statusCode err = JNum (status r) ∧
       responseData err = data r ∧
       (∀ s, getPropOpt (data r) "errorMessage" = JStr s → s ≠ "" → message err = s) ∧
       (truthy (getPropOpt (data r) "errorMessage") = false →
        message err = API_ERROR_ON_PATH +:+ url)) ∧
    (response e = None → statusCode err = JNum 500 ∧ responseData err = JNull).
Proof.
  intros Hverb Hf Hrej. exists (mapped url e).
  split; [by apply (DispatchFacts.makeRequest_rejected this url verb body f e)|].
  unfold mapped. split.
  - intros r ->. cbn. repeat split.
    + intros s -> Hs. unfold or_else. by rewrite (DispatchFacts.truthy_str _ Hs).
    + intros Hfalsy. unfold or_else. by rewrite Hfalsy.
  - intros ->. split; reflexivity.
Qed.

Lemma makeRequest_maps_rejections_witness :
  ∃ err,
    snd (ErcasPay.makeRequest (Fixture.client Fixture.notFound)
           "/api/v1/payment/details/ref" (JStr "GET") JUndefined) = Throw err ∧
    statusCode err = JNum 404 ∧
    responseData err = JObj [("errorMessage", JStr "Transaction not found")] ∧
    message err = "Transaction not found".
Proof.
  destruct (DispatchFacts.settle_non_2xx
              {| status := 404; data := JObj [("errorMessage", JStr "Transaction not found")] |}
              eq_refl) as (e & He & Hresp).
  destruct (makeRequest_maps_rejections
              (Fixture.client Fixture.notFound) "/api/v1/payment/details/ref" "GET"
              JUndefined _ e ltac:(discriminate) eq_refl He)
    as (err & Herr & Hwith & _).
  destruct (Hwith _ Hresp) as (Hstatus & Hdata & Hmsg & _).
  exists err. split; [exact Herr|]. split; [exact Hstatus|]. split; [exact Hdata|].
  exact (Hmsg "Transaction not found" eq_refl ltac:(discriminate)).
Defined.

(** C5, counterexample.  In the client that takes [verifySsl], a 404
    response with an [errorMessage] is turned into an error that has
    the message but neither a status code nor the response body. *)
Lemma makeRequest_ssl_error_carries_no_status :
  ∃ err,
    snd (ErcasPaySsl.makeRequest (Fixture.clientSsl Fixture.notFound)
           "/api/v1/payment/details/ref" (JStr "GET") JUndefined) = Throw err ∧
    message err = "Transaction not found" ∧
    statusCode err = JUndefined ∧
    responseData err = JUndefined.
Proof. eexists. repeat split. Qed.

(** C6.  With a verb that is falsy -- [undefined], the empty string --
    both revisions of the dispatch primitive throw [Method cannot be
    empty], and the events of the call contain no call on the HTTP
    client. *)
Theorem makeRequest_empty_method_no_call
    (this : ErcasPay.t) (thisSsl : ErcasPaySsl.t) (url : string) (method body : JsVal) :
  truthy method = false →
  (snd (ErcasPay.makeRequest this url method body)
     = Throw (newError Error "Method cannot be empty")
   ∧ filter is_http (fst (ErcasPay.makeRequest this url method body)) = [])
  ∧ (snd (ErcasPaySsl.makeRequest thisSsl url method body)
       = Throw (newError Error "Method cannot be empty")
     ∧ filter is_http (fst (ErcasPaySsl.makeRequest thisSsl url method body)) = []).
Proof.
  intros Hfalsy.
  unfold ErcasPay.makeRequest, ErcasPaySsl.makeRequest. cbv zeta.
  rewrite Hfalsy. repeat split.
Qed.

Lemma makeRequest_empty_method_witness :
  snd (ErcasPay.makeRequest (Fixture.client Fixture.notFound) "/x" JUndefined JUndefined)
    = Throw (newError Error "Method cannot be empty")
  ∧ snd (ErcasPaySsl.makeRequest (Fixture.clientSsl Fixture.notFound) "/x" (JStr "") JUndefined)
    = Throw (newError Error "Method cannot be empty").
Proof.
  split.
  - exact (proj1 (proj1 (makeRequest_empty_method_no_call
                           (Fixture.client Fixture.notFound)
                           (Fixture.clientSsl Fixture.notFound)
                           "/x" JUndefined JUndefined eq_refl))).
  - exact (proj1 (proj2 (makeRequest_empty_method_no_call
                           (Fixture.client Fixture.notFound)
                           (Fixture.clientSsl Fixture.notFound)
                           "/x" (JStr "") JUndefined eq_refl))).
Defined.

(* ================================================================== *)
(** * Device capture *)
(* ================================================================== *)

Module DeviceFacts.

Lemma substr_mapped_prefix (rest : string) :
  substr_to 7 (MAPPED_PREFIX +:+ rest) = MAPPED_PREFIX
  ∧ substr_from 7 (MAPPED_PREFIX +:+ rest) = rest.
Proof. split; [destruct rest; reflexivity | reflexivity]. Qed.

(** The address [Device.fromRequest] starts from:
    [request.ip || request.headers['x-forwarded-for'] || '127.0.0.1']. *)
Lemma fromRequest_normal (request : Request) (h : gmap string string) :
  headers request = Some h →
  let resolved := default (str_or (h !! "x-forwarded-for") "127.0.0.1")
                          (nonempty (ip request)) in
  Device.fromRequest request =
    Normal {| browser := JStr (str_or (h !! "user-agent") "Unknown");
              browserDetails := BrowserDetails.fromRequest request;
              ipAddress := JStr (if String.eqb (substr_to 7 resolved) MAPPED_PREFIX
                                 then substr_from 7 resolved else resolved) |}.
Proof.
  intros Hh. unfold Device.fromRequest, header. rewrite Hh.
  destruct (nonempty (ip request)); reflexivity.
Qed.

Lemma str_or_nonempty (a : option string) (b : string) : b ≠ "" → str_or a b ≠ "".
Proof.
  intros Hb. unfold str_or, nonempty. destruct a as [s|]; [|done].
  destruct (String.eqb_spec s ""); done.
Qed.

(** The revision that reads [x-forwarded-for] always fills in both
    fields with strings; the browser is never empty. *)
Lemma fromRequest_fields_are_strings (request : Request) (h : gmap string string) :
  headers request = Some h →
  ∃ d b a, Device.fromRequest request = Normal d
           ∧ browser d = JStr b ∧ b ≠ "" ∧ ipAddress d = JStr a.
Proof.
  intros Hh. rewrite (fromRequest_normal request h Hh). cbv zeta.
  eexists _, _, _. repeat split. by apply str_or_nonempty.
Qed.

Lemma fromRequest_defaults :
  Device.fromRequest Fixture.bareRequest
  = Normal {| browser := JStr "Unknown";
              browserDetails := BrowserDetails.fromRequest Fixture.bareRequest;
              ipAddress := JStr "127.0.0.1" |}.
Proof. reflexivity. Qed.

End DeviceFacts.

(** C7.  In the Device source that resolves the address from
    [request.ip] or the [x-forwarded-for] header, an address that
    begins with [::ffff:] loses that prefix: [ipAddress] is the rest of
    the address. *)
Theorem fromRequest_strips_mapped_prefix
    (request : Request) (h : gmap string string) (rest : string) :
  headers request = Some h →
  nonempty (ip request) = Some (MAPPED_PREFIX +:+ rest)
  ∨ (nonempty (ip request) = None
     ∧ nonempty (h !! "x-forwarded-for") = Some (MAPPED_PREFIX +:+ rest)) →
  ∃ d, Device.fromRequest request = Normal d ∧ ipAddress d = JStr rest.
Proof.
  intros Hh Hip. rewrite (DeviceFacts.fromRequest_normal request h Hh). cbv zeta.
  eexists. split; [reflexivity|]. cbn [ipAddress].
  assert (Hres : default (str_or (h !! "x-forwarded-for") "127.0.0.1")
                         (nonempty (ip request)) = MAPPED_PREFIX +:+ rest).
  { destruct Hip as [-> | [-> Hxff]]; [done|]. unfold str_or. by rewrite Hxff. }
  rewrite Hres.
  destruct (DeviceFacts.substr_mapped_prefix rest) as [-> ->].
  by rewrite String.eqb_refl.
Qed.

Lemma fromRequest_strips_mapped_prefix_witness :
  ∃ d, Device.fromRequest Fixture.mappedRequest = Normal d
       ∧ ipAddress d = JStr "203.0.113.5".
Proof.
  exact (fromRequest_strips_mapped_prefix Fixture.mappedRequest
           {[ "user-agent" := "Mozilla/5.0" ]} "203.0.113.5"
           eq_refl (or_introl eq_refl)).
Defined.

(** C7, counterexample.  The Device source that resolves the address
    from [request.ip] or [request.connection.remoteAddress] returns
    the address [::ffff:203.0.113.5] with its prefix. *)
Lemma fromRequest_alt_keeps_mapped_prefix :
  ∃ d, DeviceAlt.fromRequest Fixture.mappedRequest = Normal d
       ∧ ipAddress d = JStr "::ffff:203.0.113.5".
Proof. eexists. split; reflexivity. Qed.

(** C8.  Every device the other Device source returns has
    [browser] undefined: the user agent is passed to the constructor
    under the name [userAgent], which the constructor does not read. *)
Theorem fromRequest_alt_browser_undefined (request : Request) (d : DeviceObj) :
  DeviceAlt.fromRequest request = Normal d → browser d = JUndefined.
Proof.
  unfold DeviceAlt.fromRequest, header.
  destruct (headers request) as [h|]; [|discriminate].
  cbn [mbind completion_bind].
  destruct (nonempty (ip request)) as [s|].
  - cbn. intros [= <-]. reflexivity.
  - destruct (connection request) as [sock|]; [|discriminate].
    cbn. intros [= <-]. reflexivity.
Qed.

Lemma fromRequest_alt_browser_undefined_witness :
  headers Fixture.mappedRequest = Some {[ "user-agent" := "Mozilla/5.0" ]}
  ∧ ∃ d, DeviceAlt.fromRequest Fixture.mappedRequest = Normal d
         ∧ browser d = JUndefined.
Proof.
  split; [reflexivity|].
  eexists. split; [reflexivity|].
  exact (fromRequest_alt_browser_undefined Fixture.mappedRequest _ eq_refl).
Defined.

(* ================================================================== *)
(** * Construction of the client that takes [verifySsl] *)
(* ================================================================== *)

(** C10.  In the client that takes [verifySsl]: the module never binds
    [https], so with [verifySsl: false] the constructor throws
    [https is not defined]; with [verifySsl] true or left out it
    returns a client; and every client it returns has a truthy
    [verifySsl] and no HTTPS agent of its own, so none has certificate
    verification switched off. *)
Theorem constructor_verifySsl_false_throws (axios : Axios) (config : ErcasPaySsl.Config) :
  existsb (String.eqb "https") ErcasPaySsl.module_scope = false
  ∧ (ErcasPaySsl.cfg_verifySsl config = JBool false →
     snd (ErcasPaySsl.constructor axios config)
       = Throw (newError ReferenceError "https is not defined"))
  ∧ (ErcasPaySsl.cfg_verifySsl config = JBool true
     ∨ ErcasPaySsl.cfg_verifySsl config = JUndefined →
     ∃ inst, snd (ErcasPaySsl.constructor axios config) = Normal inst
             ∧ ErcasPaySsl.verifySsl inst = JBool true)
  ∧ (∀ inst, snd (ErcasPaySsl.constructor axios config) = Normal inst →
       truthy (ErcasPaySsl.verifySsl inst) = true
       ∧ cfg_httpsAgent (ErcasPaySsl.clientConfig inst) = None).
Proof.
  split; [reflexivity|].
  unfold ErcasPaySsl.constructor, ErcasPaySsl.initializeClient.
  split; [|split].
  - intros ->. reflexivity.
  - intros [-> | ->]; eexists; split; reflexivity.
  - intros inst.
    destruct (truthy (defaulted (ErcasPaySsl.cfg_verifySsl config) (JBool true))) eqn:Ht.
    + cbn. intros [= <-]. cbn. split; [exact Ht|reflexivity].
    + cbn. discriminate.
Qed.

Lemma constructor_verifySsl_false_witness :
  snd (ErcasPaySsl.constructor (AxiosModel.create Fixture.notFound)
         {| ErcasPaySsl.cfg_base := "https://api.merchant.staging.ercaspay.com";
            ErcasPaySsl.cfg_secret := "sk";
            ErcasPaySsl.cfg_verifySsl := JBool false |})
  = Throw (newError ReferenceError "https is not defined").
Proof.
  exact (proj1 (proj2 (constructor_verifySsl_false_throws
                         (AxiosModel.create Fixture.notFound)
                         {| ErcasPaySsl.cfg_base := "https://api.merchant.staging.ercaspay.com";
                            ErcasPaySsl.cfg_secret := "sk";
                            ErcasPaySsl.cfg_verifySsl := JBool false |}))
           eq_refl).
Defined.

(* ================================================================== *)
(** * Further properties of the dispatch primitive *)
(* ================================================================== *)

Module ClientFacts.

(** Unfolds one run of a dispatch primitive down to the answers of the
    client. *)
Ltac run_dispatch :=
  unfold http_calls, log_lines, ErcasPay.makeRequest, ErcasPaySsl.makeRequest;
  cbv zeta;
  unfold try_catch, mbind, run_bind, lift, lowered, invoke, emit, throw, mret, run_ret.

Lemma filter_http_app (t1 t2 : list Event) :
  filter is_http (t1 ++ t2) = filter is_http t1 ++ filter is_http t2.
Proof. apply filter_app. Qed.

(** The HTTP calls of a dispatch: none, or the one call on the
    lower-cased verb with the path and the body ([{}] when the body was
    left out). *)
Lemma makeRequest_calls (this : ErcasPay.t) (url : string) (method body : JsVal) :
  http_calls (ErcasPay.makeRequest this url method body) = []
  ∨ ∃ verb f, method = JStr verb ∧ verb ≠ ""
      ∧ ErcasPay.client this (toLowerCase verb) = Some f
      ∧ http_calls (ErcasPay.makeRequest this url method body)
        = [HttpCall (toLowerCase verb) url (defaulted body (JObj []))].
Proof.
  destruct method as [| | b | n | verb | items | props];
    try (by left);
    [ by destruct b; left
    | left; run_dispatch; cbn [truthy]; by destruct (n =? 0)%Z
    | ].
  destruct (String.eqb_spec verb "") as [->|Hverb]; [by left|].
  destruct (ErcasPay.client this (toLowerCase verb)) as [f|] eqn:Hf.
  - right. exists verb, f. repeat split; try done.
    run_dispatch. rewrite (DispatchFacts.truthy_str _ Hverb), Hf. cbn [negb].
    destruct (f url (defaulted body (JObj []))) as [r|e]; [reflexivity|].
    cbn. destruct (response e); reflexivity.
  - left. run_dispatch. rewrite (DispatchFacts.truthy_str _ Hverb), Hf. reflexivity.
Qed.

Lemma makeRequest_ssl_calls (this : ErcasPaySsl.t) (url : string) (method body : JsVal) :
  http_calls (ErcasPaySsl.makeRequest this url method body) = []
  ∨ ∃ verb f, method = JStr verb ∧ verb ≠ ""
      ∧ ErcasPaySsl.client this (toLowerCase verb) = Some f
      ∧ http_calls (ErcasPaySsl.makeRequest this url method body)
        = [HttpCall (toLowerCase verb) url (defaulted body (JObj []))].
Proof.
  destruct method as [| | b | n | verb | items | props];
    try (by left);
    [ by destruct b; left
    | left; run_dispatch; cbn [truthy]; by destruct (n =? 0)%Z
    | ].
  destruct (String.eqb_spec verb "") as [->|Hverb]; [by left|].
  destruct (ErcasPaySsl.client this (toLowerCase verb)) as [f|] eqn:Hf.
  - right. exists verb, f. repeat split; try done.
    run_dispatch. rewrite (DispatchFacts.truthy_str _ Hverb), Hf. cbn [negb].
    destruct (f url (defaulted body (JObj []))) as [r|e]; [reflexivity|].
    cbn. destruct (response e) as [resp|]; [|reflexivity].
    destruct (getProp (data resp) "errorMessage"); reflexivity.
  - left. run_dispatch. rewrite (DispatchFacts.truthy_str _ Hverb), Hf. reflexivity.
Qed.

(** A resolved call: the data of the response is returned after one
    HTTP call between two log lines. *)
Lemma makeRequest_resolved (this : ErcasPay.t) (url verb : string) (body : JsVal) f r :
  verb ≠ "" →
  ErcasPay.client this (toLowerCase verb) = Some f →
  f url (defaulted body (JObj [])) = Resolved r →
  ErcasPay.makeRequest this url (JStr verb) body
  = ([Log LogDebug "Making API request" (JObj [("url", JStr url); ("method", JStr verb)]);
      HttpCall (toLowerCase verb) url (defaulted body (JObj []));
      Log LogDebug "API request successful" JUndefined],
     Normal (data r)).
Proof.
  intros Hverb Hf Hres. run_dispatch.
  rewrite (DispatchFacts.truthy_str _ Hverb), Hf, Hres. reflexivity.
Qed.

Lemma makeRequest_ssl_resolved (this : ErcasPaySsl.t) (url verb : string) (body : JsVal) f r :
  verb ≠ "" →
  ErcasPaySsl.client this (toLowerCase verb) = Some f →
  f url (defaulted body (JObj [])) = Resolved r →
  snd (ErcasPaySsl.makeRequest this url (JStr verb) body) = Normal (data r)
  ∧ http_calls (ErcasPaySsl.makeRequest this url (JStr verb) body)
    = [HttpCall (toLowerCase verb) url (defaulted body (JObj []))].
Proof.
  intros Hverb Hf Hres. run_dispatch.
  rewrite (DispatchFacts.truthy_str _ Hverb), Hf, Hres. split; reflexivity.
Qed.

End ClientFacts.

(** X1.  A dispatch makes at most one call on the HTTP client, in both
    revisions and whatever the outcome: nothing is retried.  The call,
    when there is one, is made on the verb in lower case with the path
    as given and the body, or [{}] when the body was left out. *)
Theorem makeRequest_at_most_one_call
    (this : ErcasPay.t) (thisSsl : ErcasPaySsl.t) (url : string) (method body : JsVal) :
  let made (calls : list Event) :=
    length calls ≤ 1
    ∧ Forall (fun ev => ∃ verb, method = JStr verb
                ∧ ev = HttpCall (toLowerCase verb) url (defaulted body (JObj []))) calls in
  made (http_calls (ErcasPay.makeRequest this url method body))
  ∧ made (http_calls (ErcasPaySsl.makeRequest thisSsl url method body)).
Proof.
  cbv zeta. split.
  - destruct (ClientFacts.makeRequest_calls this url method body)
      as [-> | (verb & f & -> & _ & _ & ->)].
    + split; [cbn; lia | constructor].
    + split; [cbn; lia|]. repeat constructor. by exists verb.
  - destruct (ClientFacts.makeRequest_ssl_calls thisSsl url method body)
      as [-> | (verb & f & -> & _ & _ & ->)].
    + split; [cbn; lia | constructor].
    + split; [cbn; lia|]. repeat constructor. by exists verb.
Qed.

(** X2.  When the call resolves, the dispatch returns the data of the
    response as it is, having made exactly one call; the verb is
    matched without regard to case, since it is lower-cased before the
    client is asked for the function.  Both revisions. *)
Theorem makeRequest_returns_response_data
    (this : ErcasPay.t) (thisSsl : ErcasPaySsl.t) (url verb : string) (body : JsVal)
    (f : string → JsVal → AxiosResult) (r : AxiosResponse) :
  verb ≠ "" →
  ErcasPay.client this (toLowerCase verb) = Some f →
  ErcasPaySsl.client thisSsl (toLowerCase verb) = Some f →
  f url (defaulted body (JObj [])) = Resolved r →
  (snd (ErcasPay.makeRequest this url (JStr verb) body) = Normal (data r)
   ∧ http_calls (ErcasPay.makeRequest this url (JStr verb) body)
     = [HttpCall (toLowerCase verb) url (defaulted body (JObj []))])
  ∧ (snd (ErcasPaySsl.makeRequest thisSsl url (JStr verb) body) = Normal (data r)
     ∧ http_calls (ErcasPaySsl.makeRequest thisSsl url (JStr verb) body)
       = [HttpCall (toLowerCase verb) url (defaulted body (JObj []))]).
Proof.
  intros Hverb Hf HfSsl Hres. split.
  - rewrite (ClientFacts.makeRequest_resolved this url verb body f r Hverb Hf Hres).
    split; reflexivity.
  - exact (ClientFacts.makeRequest_ssl_resolved thisSsl url verb body f r Hverb HfSsl Hres).
Qed.

Lemma makeRequest_returns_response_data_witness :
  snd (ErcasPay.makeRequest (Fixture.client Fixture2.accepting)
         "/api/v1/payment/initiate" (JStr "Post") (JObj [("amount", JNum 100)]))
  = Normal (JObj [("requestSuccessful", JBool true)])
  ∧ http_calls (ErcasPay.makeRequest (Fixture.client Fixture2.accepting)
                  "/api/v1/payment/initiate" (JStr "Post") (JObj [("amount", JNum 100)]))
    = [HttpCall "post" "/api/v1/payment/initiate" (JObj [("amount", JNum 100)])].
Proof.
  exact (proj1 (makeRequest_returns_response_data
                  (Fixture.client Fixture2.accepting) (Fixture.clientSsl Fixture2.accepting)
                  "/api/v1/payment/initiate" "Post" (JObj [("amount", JNum 100)])
                  _ Fixture2.accepted ltac:(discriminate) eq_refl eq_refl eq_refl)).
Defined.

(** X3.  A truthy verb the client cannot be called with -- a value
    that is not a string, or a name the client has no function for --
    is caught by the [catch] of the dispatch like a network failure:
    the error raised carries status 500 and a [null] body, its message
    is the one of the TypeError, and no call is made. *)
Theorem makeRequest_unusable_verb_is_500
    (this : ErcasPay.t) (url : string) (method body : JsVal) :
  truthy method = true →
  (∀ verb, method = JStr verb → ErcasPay.client this (toLowerCase verb) = None) →
  ∃ err,
    snd (ErcasPay.makeRequest this url method body) = Throw err
    ∧ name err = Error ∧ statusCode err = JNum 500 ∧ responseData err = JNull
    ∧ message err = (match method with
                     | JStr _ => "this.client[method.toLowerCase(...)] is not a function"
                     | _ => "method.toLowerCase is not a function"
                     end)
    ∧ http_calls (ErcasPay.makeRequest this url method body) = [].
Proof.
  intros Htruthy Hnone.
  destruct method as [| | b | n | verb | items | props]; try discriminate.
  - ClientFacts.run_dispatch. rewrite Htruthy. eexists. by repeat split.
  - ClientFacts.run_dispatch. rewrite Htruthy. eexists. by repeat split.
  - ClientFacts.run_dispatch. rewrite Htruthy, (Hnone verb eq_refl).
    eexists. by repeat split.
  - eexists. by repeat split.
  - eexists. by repeat split.
Qed.

Lemma makeRequest_unusable_verb_witness :
  ∃ err,
    snd (ErcasPay.makeRequest (Fixture.client Fixture2.accepting) "/x" (JStr "FETCH") JUndefined)
      = Throw err
    ∧ statusCode err = JNum 500
    ∧ message err = "this.client[method.toLowerCase(...)] is not a function".
Proof.
  destruct (makeRequest_unusable_verb_is_500
              (Fixture.client Fixture2.accepting) "/x" (JStr "FETCH") JUndefined eq_refl)
    as (err & Herr & _ & Hstatus & _ & Hmsg & _).
  { intros verb [= <-]. reflexivity. }
  exists err. by repeat split.
Defined.

(* ================================================================== *)
(** * The endpoint methods *)
(* ================================================================== *)

Module EndpointFacts.

(** A method that logs, dispatches, logs the response and returns it
    adds its two log lines to the events of the dispatch and nothing
    else. *)
Lemma logged_run (pre : Event) (m : Run JsVal) (msg : string) :
  (emit pre ;;
   response ← m;
   emit (Log LogDebug msg (JObj [("response", response)])) ;;
   mret response)
  = (pre :: fst m ++ match snd m with
                     | Normal r => [Log LogDebug msg (JObj [("response", r)])]
                     | Throw _ => []
                     end,
     snd m).
Proof.
  destruct m as [t [r|e]]; [reflexivity|].
  unfold mbind, run_bind, emit. cbn [fst snd]. by rewrite app_nil_r.
Qed.

Lemma http_calls_logged (pre : Event) (t : list Event) (c : Completion JsVal) (msg : string) :
  is_http pre = false →
  filter is_http (pre :: t ++ match c with
                              | Normal r => [Log LogDebug msg (JObj [("response", r)])]
                              | Throw _ => []
                              end)
  = filter is_http t.
Proof.
  intros Hpre. rewrite filter_cons, Hpre. cbn [decide_rel].
  rewrite filter_app. destruct c; cbn; by rewrite ?app_nil_r.
Qed.

Lemma dispatch_follows_row (this : ErcasPay.t) (pre : Event) (msg path VERB : string)
    (body : JsVal) :
  is_http pre = false → VERB ≠ "" →
  follows_row this
    (emit pre ;;
     response ← ErcasPay.makeRequest this path (JStr VERB) body;
     emit (Log LogDebug msg (JObj [("response", response)])) ;;
     mret response)
    (toLowerCase VERB) path (defaulted body (JObj [])).
Proof.
  intros Hpre Hverb. rewrite logged_run. unfold follows_row, http_calls.
  cbn [fst snd]. rewrite (http_calls_logged pre _ _ msg Hpre).
  repeat split.
  - by rewrite (ClientFacts.makeRequest_resolved this path VERB body f r Hverb H H0).
  - by rewrite (ClientFacts.makeRequest_resolved this path VERB body f r Hverb H H0).
  - by apply (DispatchFacts.makeRequest_rejected this path VERB body f e).
  - destruct (ClientFacts.makeRequest_calls this path (JStr VERB) body)
      as [Hnil | (verb & f' & [= <-] & _ & Hf' & Hcalls)].
    + unfold http_calls in Hnil.
      pose proof (DispatchFacts.makeRequest_rejected this path VERB body f e Hverb H H0).
      revert Hnil. ClientFacts.run_dispatch.
      rewrite (DispatchFacts.truthy_str _ Hverb), H, H0. cbn.
      destruct (response e); discriminate.
    + exact Hcalls.
  - destruct (DispatchFacts.makeRequest_not_callable this path VERB body Hverb H)
      as (err & -> & _). reflexivity.
  - destruct (DispatchFacts.makeRequest_not_callable this path VERB body Hverb H)
      as (err & _ & _ & _ & Hcalls). exact Hcalls.
Qed.

End EndpointFacts.

(** X4.  Every row of the endpoint table holds of the method it names:
    the method makes its one call with the verb, the path (the
    reference spliced in as it is) and the body of the row, returns
    the data of the response when the call resolves, and throws the
    error of the dispatch when it is rejected. *)
Theorem endpoints_follow_table (this : ErcasPay.t)
    (data transactionRef paymentReference paymentMethod otp bankName : JsVal) :
  Forall (fun row => follows_row this row.1 row.2.1.1 row.2.1.2 row.2.2)
    (endpointTable this data transactionRef paymentReference paymentMethod otp bankName).
Proof.
  unfold endpointTable. cbv zeta.
  repeat match goal with
         | |- Forall _ (_ :: _) => constructor
         | |- Forall _ [] => constructor
         end; cbn [fst snd].
  - by apply (EndpointFacts.dispatch_follows_row this _ _ _ "POST" data).
  - by apply (EndpointFacts.dispatch_follows_row this _ _ _ "GET" JUndefined).
  - by apply (EndpointFacts.dispatch_follows_row this _ _ _ "GET" JUndefined).
  - by apply (EndpointFacts.dispatch_follows_row this _ _ _ "POST" (JObj _)).
  - by apply (EndpointFacts.dispatch_follows_row this _ _ _ "GET" JUndefined).
  - by apply (EndpointFacts.dispatch_follows_row this _ _ _ "POST" (JObj _)).
  - by apply (EndpointFacts.dispatch_follows_row this _ _ _ "GET" JUndefined).
  - by apply (EndpointFacts.dispatch_follows_row this _ _ _ "POST" (JObj _)).
  - by apply (EndpointFacts.dispatch_follows_row this _ _ _ "POST" (JObj _)).
  - by apply (EndpointFacts.dispatch_follows_row this _ _ _ "GET" JUndefined).
  - by apply (EndpointFacts.dispatch_follows_row this _ _ _ "POST" (JObj _)).
Qed.

(** X5.  [getBankListForUssd] reads [response.responseBody] for its log
    line after the call has resolved.  When the body of the response
    is [null] or [undefined] that read throws a TypeError, so the
    method fails although the request succeeded; for any other body
    the body is returned. *)
Theorem getBankListForUssd_null_body_throws
    (this : ErcasPay.t) (f : string → JsVal → AxiosResult) (r : AxiosResponse) :
  ErcasPay.client this "get" = Some f →
  f "/api/v1/payment/ussd/supported-banks" (JObj []) = Resolved r →
  http_calls (Endpoints.getBankListForUssd this)
    = [HttpCall "get" "/api/v1/payment/ussd/supported-banks" (JObj [])]
  ∧ (data r = JNull ∨ data r = JUndefined →
     snd (Endpoints.getBankListForUssd this)
       = Throw (cannot_read (ToString (data r)) "responseBody"))
  ∧ (data r ≠ JNull → data r ≠ JUndefined →
     snd (Endpoints.getBankListForUssd this) = Normal (data r)).
Proof.
  intros Hf Hres. unfold Endpoints.getBankListForUssd, http_calls.
  rewrite (ClientFacts.makeRequest_resolved this _ "GET" JUndefined f r
             ltac:(discriminate) Hf Hres).
  unfold responseBody.
  destruct (data r) as [| | b | n | s | items | props] eqn:Hdata;
    (split; [reflexivity|]); split; try done; try (by intros [?|?]).
Qed.

Lemma getBankListForUssd_null_body_witness :
  snd (Endpoints.getBankListForUssd (Fixture.client Fixture2.nullBody))
  = Throw (cannot_read "null" "responseBody").
Proof.
  exact (proj1 (proj2 (getBankListForUssd_null_body_throws
                         (Fixture.client Fixture2.nullBody) _
                         {| status := 200; data := JNull |} eq_refl eq_refl))
           (or_introl eq_refl)).
Defined.

Module LoggingFacts.

(** The log lines and the outcome of a dispatch of the revision with
    [statusCode] depend on the body only through the answer of the
    client. *)
Lemma makeRequest_logs_ignore_body (this : ErcasPay.t) (url : string)
    (method b1 b2 : JsVal) :
  (∀ verb f, method = JStr verb → ErcasPay.client this (toLowerCase verb) = Some f →
             f url (defaulted b1 (JObj [])) = f url (defaulted b2 (JObj []))) →
  log_lines (ErcasPay.makeRequest this url method b1)
    = log_lines (ErcasPay.makeRequest this url method b2)
  ∧ snd (ErcasPay.makeRequest this url method b1)
    = snd (ErcasPay.makeRequest this url method b2).
Proof.
  intros Hsame.
  destruct method as [| | b | n | verb | items | props].
  1, 2, 6, 7: by split.
  - by destruct b.
  - ClientFacts.run_dispatch. cbn [truthy]. by destruct (n =? 0)%Z.
  - destruct (String.eqb_spec verb "") as [->|Hverb]; [by split|].
    ClientFacts.run_dispatch. rewrite (DispatchFacts.truthy_str _ Hverb). cbn [negb].
    destruct (ErcasPay.client this (toLowerCase verb)) as [f|] eqn:Hf; [|by split].
    rewrite (Hsame verb f eq_refl Hf).
    destruct (f url (defaulted b2 (JObj []))) as [r|e]; [by split|].
    cbn. destruct (response e); by split.
Qed.

(** The first event of a dispatch of the revision with [verifySsl] is
    the log line that carries the body. *)
Lemma makeRequest_ssl_first_event (this : ErcasPaySsl.t) (url : string)
    (method body : JsVal) :
  ∃ rest,
    fst (ErcasPaySsl.makeRequest this url method body)
    = Log LogInfo "Making API request"
        (JObj [("url", JStr url); ("method", method);
               ("data", defaulted body (JObj []))]) :: rest.
Proof.
  unfold ErcasPaySsl.makeRequest. cbv zeta. unfold mbind, run_bind, emit.
  match goal with |- context [let '(t', r) := ?m in _] => destruct m as [t' r] end.
  by eexists.
Qed.

End LoggingFacts.

(** X6.  In the revision that takes [verifySsl], [submitCardOTP] hands
    the one-time password to the logger: the dispatch logs its whole
    body at level info before the call is made. *)
Theorem submitCardOTP_ssl_logs_otp
    (this : ErcasPaySsl.t) (transactionRef paymentReference otp : JsVal) :
  In (Log LogInfo "Making API request"
        (JObj [("url", JStr ("/api/v1/payment/cards/otp/submit/" +:+ ToString transactionRef));
               ("method", JStr "POST");
               ("data", JObj [("otp", otp); ("gatewayReference", paymentReference)])]))
     (log_lines (EndpointsSsl.submitCardOTP this transactionRef paymentReference otp)).
Proof.
  unfold EndpointsSsl.submitCardOTP, log_lines.
  destruct (LoggingFacts.makeRequest_ssl_first_event this
              ("/api/v1/payment/cards/otp/submit/" +:+ ToString transactionRef)
              (JStr "POST") (JObj [("otp", otp); ("gatewayReference", paymentReference)]))
    as [rest Hfirst].
  destruct (ErcasPaySsl.makeRequest this _ _ _) as [t c]. cbn [fst] in Hfirst. subst t.
  unfold mbind, run_bind, emit.
  destruct c as [response|e]; cbn; right; left; reflexivity.
Qed.

(** X7.  In the revision with [statusCode], what [submitCardOTP] logs
    and how it completes do not depend on the one-time password, as
    long as the client gives the same answer: the body of a request is
    not logged. *)
Theorem submitCardOTP_logs_ignore_otp
    (this : ErcasPay.t) (transactionRef paymentReference otp1 otp2 : JsVal) :
  (∀ f, ErcasPay.client this "post" = Some f →
        f ("/api/v1/payment/cards/otp/submit/" +:+ ToString transactionRef)
          (JObj [("otp", otp1); ("gatewayReference", paymentReference)])
        = f ("/api/v1/payment/cards/otp/submit/" +:+ ToString transactionRef)
            (JObj [("otp", otp2); ("gatewayReference", paymentReference)])) →
  log_lines (Endpoints.submitCardOTP this transactionRef paymentReference otp1)
    = log_lines (Endpoints.submitCardOTP this transactionRef paymentReference otp2)
  ∧ snd (Endpoints.submitCardOTP this transactionRef paymentReference otp1)
    = snd (Endpoints.submitCardOTP this transactionRef paymentReference otp2).
Proof.
  intros Hsame.
  destruct (LoggingFacts.makeRequest_logs_ignore_body this
              ("/api/v1/payment/cards/otp/submit/" +:+ ToString transactionRef)
              (JStr "POST")
              (JObj [("otp", otp1); ("gatewayReference", paymentReference)])
              (JObj [("otp", otp2); ("gatewayReference", paymentReference)]))
    as [Hlogs Hsnd].
  { intros verb f [= <-] Hf. by apply Hsame. }
  unfold Endpoints.submitCardOTP, log_lines in *.
  rewrite !EndpointFacts.logged_run. cbn [fst snd].
  rewrite Hsnd. split; [|reflexivity].
  rewrite !filter_cons, !filter_app. cbn [is_log is_http negb decide_rel].
  by rewrite Hlogs.
Qed.

Lemma submitCardOTP_logs_ignore_otp_witness :
  log_lines (Endpoints.submitCardOTP (Fixture.client Fixture2.accepting)
               (JStr "ref-1") (JStr "gw-1") (JStr "123456"))
  = log_lines (Endpoints.submitCardOTP (Fixture.client Fixture2.accepting)
                 (JStr "ref-1") (JStr "gw-1") (JStr "654321")).
Proof.
  assert (Hsame : ∀ f, ErcasPay.client (Fixture.client Fixture2.accepting) "post" = Some f →
            f ("/api/v1/payment/cards/otp/submit/" +:+ ToString (JStr "ref-1"))
              (JObj [("otp", JStr "123456"); ("gatewayReference", JStr "gw-1")])
            = f ("/api/v1/payment/cards/otp/submit/" +:+ ToString (JStr "ref-1"))
                (JObj [("otp", JStr "654321"); ("gatewayReference", JStr "gw-1")])).
  { intros f [= <-]. reflexivity. }
  exact (proj1 (submitCardOTP_logs_ignore_otp (Fixture.client Fixture2.accepting)
                  (JStr "ref-1") (JStr "gw-1") (JStr "123456") (JStr "654321") Hsame)).
Defined.

(* ================================================================== *)
(** * The card transaction *)
(* ================================================================== *)

Module CardFacts.

(** The HTTP calls of a card transaction: none, or the one call that
    posts the payload returned by [encrypt]. *)
Lemma card_transaction_calls (host : Host) (this : ErcasPay.t) (p : CardCall) :
  http_calls (ErcasPay.initiateCardTransaction host this p) = []
  ∨ ∃ dto encryptor payload,
      PayerDeviceDto.fromRequest (request p) = Normal dto
      ∧ CardEncryptor.constructor (files host) (dirname host +:+ "/key/rsa_public_key.pub")
        = Normal encryptor
      ∧ CardEncryptor.encrypt (crypto host) (files host) encryptor (cardParams p)
        = Normal payload
      ∧ http_calls (ErcasPay.initiateCardTransaction host this p)
        = [HttpCall "post" "/api/v1/payment/cards/initialize"
             (JObj [("transactionReference", transactionRef p);
                    ("payload", JStr payload);
                    ("deviceDetails", PayerDeviceDto.toArray dto)])].
Proof.
  unfold ErcasPay.initiateCardTransaction, http_calls.
  unfold mbind, run_bind, lift, emit.
  destruct (PayerDeviceDto.fromRequest (request p)) as [dto|e] eqn:Hdto; [|by left].
  cbv beta iota.
  destruct (CardEncryptor.constructor _ _) as [encryptor|e] eqn:Henc; [|by left].
  cbv beta iota.
  destruct (CardEncryptor.encrypt _ _ _ _) as [payload|e] eqn:Hpay; [|by left].
  cbv beta iota.
  pose proof (ClientFacts.makeRequest_calls this "/api/v1/payment/cards/initialize"
                (JStr "POST")
                (JObj [("transactionReference", transactionRef p);
                       ("payload", JStr payload);
                       ("deviceDetails", PayerDeviceDto.toArray dto)])) as Hcalls.
  unfold http_calls in Hcalls.
  destruct (ErcasPay.makeRequest this _ _ _) as [tM c]. cbn [fst] in Hcalls.
  assert (Hwhole : ∀ pre1 pre2 post : Event,
            is_http pre1 = false → is_http pre2 = false → is_http post = false →
            filter is_http (pre1 :: pre2 :: tM ++ match c with
                                                  | Normal _ => [post]
                                                  | Throw _ => []
                                                  end)
            = filter is_http tM).
  { intros pre1 pre2 post H1 H2 H3. rewrite !filter_cons, H1, H2. cbn [decide_rel].
    rewrite filter_app. destruct c; cbn; rewrite ?H3; cbn; by rewrite app_nil_r. }
  destruct c as [a|e]; unfold mret, run_ret; cbn [fst snd app].
  - pose proof (Hwhole (Log LogDebug "Initiating card transaction"
                          (JObj [("transactionRef", transactionRef p)]))
                  (Log LogDebug "Device details captured" (PayerDeviceDto.toArray dto))
                  (Log LogDebug "Card transaction initiated successfully"
                     (JObj [("transactionRef", transactionRef p)]))
                  eq_refl eq_refl eq_refl) as ->.
    destruct Hcalls as [-> | (verb & f & [= <-] & _ & _ & ->)]; [by left|].
    right. by exists dto, encryptor, payload.
  - pose proof (Hwhole (Log LogDebug "Initiating card transaction"
                          (JObj [("transactionRef", transactionRef p)]))
                  (Log LogDebug "Device details captured" (PayerDeviceDto.toArray dto))
                  (Log LogDebug "Card transaction initiated successfully"
                     (JObj [("transactionRef", transactionRef p)]))
                  eq_refl eq_refl eq_refl) as Hw.
    cbn [app] in Hw. rewrite app_nil_r in Hw. rewrite Hw.
    destruct Hcalls as [-> | (verb & f & [= <-] & _ & _ & ->)]; [by left|].
    right. by exists dto, encryptor, payload.
Qed.

End CardFacts.

(** X8.  A card transaction makes at most one HTTP call, and a call is
    made only after the device was captured, the encryptor built and
    the card encrypted: it is the POST to [/api/v1/payment/cards/initialize]
    whose [payload] is the text returned by [encrypt].  When any of
    the three steps throws, nothing is sent. *)
Theorem initiateCardTransaction_sends_only_ciphertext
    (host : Host) (this : ErcasPay.t) (p : CardCall) :
  length (http_calls (ErcasPay.initiateCardTransaction host this p)) ≤ 1
  ∧ Forall (fun ev =>
      ∃ dto encryptor payload,
        PayerDeviceDto.fromRequest (request p) = Normal dto
        ∧ CardEncryptor.constructor (files host)
            (dirname host +:+ "/key/rsa_public_key.pub") = Normal encryptor
        ∧ CardEncryptor.encrypt (crypto host) (files host) encryptor (cardParams p)
          = Normal payload
        ∧ ev = HttpCall "post" "/api/v1/payment/cards/initialize"
                 (JObj [("transactionReference", transactionRef p);
                        ("payload", JStr payload);
                        ("deviceDetails", PayerDeviceDto.toArray dto)]))
      (http_calls (ErcasPay.initiateCardTransaction host this p)).
Proof.
  destruct (CardFacts.card_transaction_calls host this p)
    as [-> | (dto & encryptor & payload & Hdto & Henc & Hpay & ->)].
  - split; [cbn; lia | constructor].
  - split; [cbn; lia|]. repeat constructor. by exists dto, encryptor, payload.
Qed.



(* ================================================================== *)
(** * Further properties of the encryptor *)
(* ================================================================== *)

(** X10.  Whatever [encrypt] returns is a ciphertext: a payload is
    returned only when the key file was read, its normalised text
    decoded to a key, the parameters serialised and the text fitted;
    the payload is then the base64 text of the encryption of that
    text, as long as [4 * ceil(k / 3)] says and made of base64
    characters only. *)
Theorem encrypt_returns_only_ciphertext
    (crypto : NodeCrypto) (fs : gmap string Fs.Node) (this : CardEncryptor.t)
    (params : JsVal) (payload : string) :
  CardEncryptor.encrypt crypto fs this params = Normal payload →
  ∃ text key json,
    fs !! CardEncryptor.publicKeyPath this = Some (Fs.File text)
    ∧ createPublicKey crypto (CardEncryptor.normalizeKey text) = Some key
    ∧ stringify params = Some json
    ∧ String.length json + 11 ≤ Rsa.octets key
    ∧ payload = Base64.encode
                  (Rsa.ciphertext (randomOctet crypto) key (list_byte_of_string json))
    ∧ String.length payload = 4 * ((Rsa.octets key + 2) / 3)
    ∧ Base64.matches_class payload = true.
Proof.
  unfold CardEncryptor.encrypt, CardEncryptor.encrypt_given, Fs.readFileSync, publicEncrypt.
  destruct (fs !! CardEncryptor.publicKeyPath this) as [[text|]|] eqn:Hfile;
    try discriminate.
  destruct (stringify params) as [json|] eqn:Hjson; [|discriminate].
  destruct (createPublicKey crypto (CardEncryptor.normalizeKey text)) as [key|] eqn:Hkey;
    [|discriminate].
  unfold Rsa.encrypt, Rsa.PADDING_SIZE.
  destruct (Nat.ltb_spec (Rsa.octets key) (length (list_byte_of_string json) + 11))
    as [Hlong|Hfit]; [discriminate|].
  intros [= <-]. rewrite list_byte_of_string_length in Hfit.
  exists text, key, json. repeat split; try done.
  - by rewrite Base64Facts.encode_length, RsaFacts.ciphertext_length.
  - apply Base64Facts.encode_matches_class. intros Hnil.
    pose proof (RsaFacts.ciphertext_length (randomOctet crypto) key
                  (list_byte_of_string json)) as Hlen.
    rewrite Hnil in Hlen. cbn in Hlen. lia.
Qed.

Lemma encrypt_returns_only_ciphertext_witness :
  ∃ text key json,
    Fixture.files !! CardEncryptor.publicKeyPath Fixture.encryptor = Some (Fs.File text)
    ∧ createPublicKey Fixture.crypto (CardEncryptor.normalizeKey text) = Some key
    ∧ stringify (cardObject Fixture.card) = Some json
    ∧ String.length json + 11 ≤ Rsa.octets key.
Proof.
  assert (Hfit : String.length (cardJson Fixture.card) + 11 ≤ Rsa.octets Fixture.key).
  { rewrite EncryptorFacts.fixture_octets. vm_compute. lia. }
  destruct (encrypt_returns_only_ciphertext
              Fixture.crypto Fixture.files Fixture.encryptor (cardObject Fixture.card) _
              (EncryptorFacts.encrypt_normal _ _ _ _ _
                 EncryptorFacts.fixture_file EncryptorFacts.fixture_key
                 _ _ (EncryptorFacts.stringify_card Fixture.card) Hfit))
    as (text & key & json & H1 & H2 & H3 & H4 & _).
  by exists text, key, json.
Defined.

(** X11.  The check of the constructor is one of existence only.  For
    a path that names something that cannot be read as a file (a
    directory, say) construction succeeds and every [encrypt] throws
    [Failed to read public key file]; the same happens when the file
    is gone by the time of the call.  Neither the parameters nor the
    crypto module are looked at. *)
Theorem encrypt_unreadable_key_file
    (crypto : NodeCrypto) (fs : gmap string Fs.Node) (path : string) (params : JsVal) :
  fs !! path = Some Fs.Unreadable ∨ fs !! path = None →
  (fs !! path = Some Fs.Unreadable →
   CardEncryptor.constructor fs path = Normal {| CardEncryptor.publicKeyPath := path |})
  ∧ CardEncryptor.encrypt crypto fs {| CardEncryptor.publicKeyPath := path |} params
    = Throw (newError Error ("Failed to read public key file: " +:+ path)).
Proof.
  intros Hpath. split.
  - intros Hdir. unfold CardEncryptor.constructor, Fs.existsSync. by rewrite Hdir.
  - unfold CardEncryptor.encrypt, CardEncryptor.encrypt_given, Fs.readFileSync.
    cbn [CardEncryptor.publicKeyPath].
    by destruct Hpath as [-> | ->].
Qed.

Lemma encrypt_unreadable_key_file_witness :
  CardEncryptor.constructor Fixture2.directoryAtKeyPath Fixture.keyPath
    = Normal Fixture.encryptor
  ∧ CardEncryptor.encrypt Fixture.crypto Fixture2.directoryAtKeyPath Fixture.encryptor
      (cardObject Fixture.card)
    = Throw (newError Error ("Failed to read public key file: " +:+ Fixture.keyPath)).
Proof.
  destruct (encrypt_unreadable_key_file Fixture.crypto Fixture2.directoryAtKeyPath
              Fixture.keyPath (cardObject Fixture.card) (or_introl eq_refl))
    as [Hctor Henc].
  split; [exact (Hctor eq_refl) | exact Henc].
Defined.

(** X12.  The errors of [encrypt].  Whatever the parameters are and
    however [JSON.stringify] completes on them, an error [encrypt]
    throws is one of three.  It is the plain Error
    [Failed to read public key file: ] and the path, exactly when the
    key file could not be read.  It is what [JSON.stringify] threw (a
    TypeError, on a BigInt or on an object that contains itself), as
    it is: that call stands outside both [try] blocks, so its error is
    not wrapped.  Or it is the plain Error [Encryption failed: ]
    followed by the message of the cause: parameters that serialise to
    [undefined], a key text the decoder rejects, or a text too long
    for the key. *)
Theorem encrypt_error_paths
    (crypto : NodeCrypto) (fs : gmap string Fs.Node) (this : CardEncryptor.t)
    (serialised : Completion (option string)) (e : JsError) :
  CardEncryptor.encrypt_given crypto fs this serialised = Throw e →
  (Fs.readFileSync fs (CardEncryptor.publicKeyPath this) = None
   ∧ e = newError Error
           ("Failed to read public key file: " +:+ CardEncryptor.publicKeyPath this))
  ∨ ∃ text,
      Fs.readFileSync fs (CardEncryptor.publicKeyPath this) = Some text
      ∧ (serialised = Throw e
         ∨ ∃ cause,
             e = newError Error ("Encryption failed: " +:+ cause)
             ∧ (serialised = Normal None
                ∨ ∃ json,
                    serialised = Normal (Some json)
                    ∧ (createPublicKey crypto (CardEncryptor.normalizeKey text) = None
                       ∨ ∃ key,
                           createPublicKey crypto (CardEncryptor.normalizeKey text) = Some key
                           ∧ Rsa.octets key < String.length json + 11))).
Proof.
  unfold CardEncryptor.encrypt_given, publicEncrypt.
  destruct (Fs.readFileSync fs (CardEncryptor.publicKeyPath this)) as [text|] eqn:Hread.
  - cbv zeta. intros Henc. right. exists text. split; [reflexivity|].
    destruct serialised as [[json|]|thrown].
    + right.
      destruct (createPublicKey crypto (CardEncryptor.normalizeKey text)) as [key|] eqn:Hkey.
      * revert Henc. unfold Rsa.encrypt, Rsa.PADDING_SIZE.
        destruct (Nat.ltb_spec (Rsa.octets key) (length (list_byte_of_string json) + 11))
          as [Hlong|Hfit]; [|discriminate].
        intros [= <-]. rewrite list_byte_of_string_length in Hlong.
        exists ERR_DATA_TOO_LARGE. split; [reflexivity|].
        right. exists json. split; [reflexivity|]. right. by exists key.
      * injection Henc as <-. exists ERR_UNSUPPORTED. split; [reflexivity|].
        right. exists json. split; [reflexivity|]. by left.
    + right. injection Henc as <-. exists ERR_BUFFER_ARG. split; [reflexivity|]. by left.
    + left. by injection Henc as <-.
  - intros [= <-]. by left.
Qed.

Lemma encrypt_error_paths_witness :
  CardEncryptor.encrypt_given Fixture.crypto Fixture.files Fixture.encryptor
    (Throw Fixture2.bigIntError) = Throw Fixture2.bigIntError
  ∧ name Fixture2.bigIntError = TypeError
  ∧ ∃ text, Fs.readFileSync Fixture.files (CardEncryptor.publicKeyPath Fixture.encryptor)
            = Some text.
Proof.
  split; [reflexivity|]. split; [reflexivity|].
  destruct (encrypt_error_paths Fixture.crypto Fixture.files Fixture.encryptor
              (Throw Fixture2.bigIntError) Fixture2.bigIntError eq_refl)
    as [[Hnone _] | (text & Hread & _)].
  - discriminate Hnone.
  - exists text. exact Hread.
Defined.

(* ================================================================== *)
(** * Further properties of the key normalisation *)
(* ================================================================== *)

Module TrimFacts.

Lemma ws_byte_false_ws1 a : ws_byte a = false → ws1 a = false.
Proof.
  intros H. destruct (ws1 a) eqn:H1; [|done].
  by rewrite (StringFacts.ws1_byte a H1) in H.
Qed.

Lemma ws_byte_false_ws2 a b : ws_byte a = false → ws2 a b = false.
Proof.
  intros H. destruct (ws2 a b) eqn:H2; [|done].
  destruct (StringFacts.ws2_bytes a b H2) as [Ha _]. by rewrite Ha in H.
Qed.

Lemma ws_byte_false_ws3 a b c : ws_byte a = false → ws3 a b c = false.
Proof.
  intros H. destruct (ws3 a b c) eqn:H3; [|done].
  destruct (StringFacts.ws3_bytes a b c H3) as [Ha _]. by rewrite Ha in H.
Qed.

(** Nothing is trimmed from the start of a text whose first byte is
    not a white-space byte. *)
Lemma trimStart_nonws (a : ascii) (rest : string) :
  ws_byte a = false → trimStart (String a rest) = String a rest.
Proof.
  intros Ha. cbn [trimStart]. rewrite (ws_byte_false_ws1 a Ha).
  destruct rest as [|b r2]; [done|]. rewrite (ws_byte_false_ws2 a b Ha).
  destruct r2 as [|c r3]; [done|]. by rewrite (ws_byte_false_ws3 a b c Ha).
Qed.

(** Leading white space is trimmed whatever follows it. *)
Lemma trimStart_blank_app (w s : string) :
  blank w = true → trimStart (w +:+ s) = trimStart s.
Proof.
  unfold blank. intros Hb. apply String.eqb_eq in Hb.
  remember (String.length w) as n eqn:Hn.
  assert (Hle : String.length w ≤ n) by lia. clear Hn.
  revert w Hle Hb. induction n as [|n IH]; intros w Hle Hb.
  { destruct w; [done|]. cbn in Hle. lia. }
  destruct w as [|a r1]; [done|].
  cbn [String.length] in Hle. cbn [trimStart] in Hb.
  change (String a r1 +:+ s) with (String a (r1 +:+ s)). cbn [trimStart].
  destruct (ws1 a) eqn:H1; [apply IH; [lia|done]|].
  destruct r1 as [|b r2]; [discriminate|].
  cbn [String.length] in Hle.
  change (String b r2 +:+ s) with (String b (r2 +:+ s)). cbv beta iota.
  destruct (ws2 a b) eqn:H2; [apply IH; [lia|done]|].
  destruct r2 as [|c r3]; [discriminate|].
  cbn [String.length] in Hle.
  change (String c r3 +:+ s) with (String c (r3 +:+ s)). cbv beta iota.
  destruct (ws3 a b c) eqn:H3; [apply IH; [lia|done]|discriminate].
Qed.

Lemma trimEnd_blank (w : string) : blank w = true → trimEnd w = "".
Proof. intros Hb. destruct w as [|a rest]; [done|]. cbn [trimEnd]. by rewrite Hb. Qed.

(** Trailing white space is trimmed back to the last byte that is not
    a white-space byte. *)
Lemma trimEnd_app_blank (s w : string) (z : ascii) :
  ws_byte z = false → blank w = true →
  trimEnd ((s +:+ String z "") +:+ w) = s +:+ String z "".
Proof.
  intros Hz Hw.
  assert (Hkeep : ∀ t, blank (t +:+ String z w) = false).
  { intros t. apply StringFacts.blank_app_false. cbn [all_chars]. by rewrite Hz. }
  induction s as [|a s IH].
  - change (("" +:+ String z "") +:+ w) with (String z w).
    cbn [trimEnd]. rewrite (Hkeep "" : blank (String z w) = false).
    by rewrite (trimEnd_blank w Hw).
  - change ((String a s +:+ String z "") +:+ w)
      with (String a ((s +:+ String z "") +:+ w)).
    cbn [trimEnd]. rewrite IH.
    replace (String a ((s +:+ String z "") +:+ w)) with (String a s +:+ String z w);
      [by rewrite Hkeep|].
    change (String a s +:+ String z w) with (String a (s +:+ String z w)).
    f_equal. by rewrite string_app_assoc.
Qed.

Lemma prefix_split (pat s : string) :
  String.prefix pat s = true → s = pat +:+ drop (String.length pat) s.
Proof.
  revert s. induction pat as [|a pat IH]; intros s; [done|].
  destruct s as [|b s]; [discriminate|]. cbn [String.prefix].
  destruct (ascii_dec a b) as [->|]; [|discriminate].
  intros H. cbn [String.length drop]. change (String b pat +:+ drop (String.length pat) s)
    with (String b (pat +:+ drop (String.length pat) s)). by rewrite <- IH.
Qed.

Lemma prefix_app (pat s t : string) :
  String.prefix pat s = true → String.prefix pat (s +:+ t) = true.
Proof.
  revert s. induction pat as [|a pat IH]; intros s; [intros _; by destruct (s +:+ t)|].
  destruct s as [|b s]; [discriminate|].
  change (String b s +:+ t) with (String b (s +:+ t)). cbn [String.prefix].
  destruct (ascii_dec a b); [apply IH|discriminate].
Qed.

Lemma prefix_app_short (pat s t : string) :
  String.prefix pat s = false → String.length pat ≤ String.length s →
  String.prefix pat (s +:+ t) = false.
Proof.
  revert s. induction pat as [|a pat IH]; intros s; [by destruct s|].
  destruct s as [|b s]; [cbn; lia|].
  change (String b s +:+ t) with (String b (s +:+ t)). cbn [String.prefix String.length].
  destruct (ascii_dec a b); [|done]. intros H Hlen. apply IH; [done|lia].
Qed.

Lemma drop_length (n : nat) (s : string) :
  String.length (drop n s) = String.length s - n.
Proof.
  revert s. induction n as [|n IH]; intros s; [cbn; lia|].
  destruct s as [|c s]; [done|]. cbn [drop String.length]. by rewrite IH.
Qed.

Lemma includes_length (pat s : string) :
  includes pat s = true → String.length pat ≤ String.length s.
Proof.
  induction s as [|c s IH]; cbn [includes]; intros H; apply orb_true_iff in H as [H|H].
  - destruct pat; [cbn; lia|discriminate].
  - discriminate.
  - pose proof (prefix_split pat _ H) as Hs.
    apply (f_equal String.length) in Hs. rewrite string_length_app in Hs. lia.
  - specialize (IH H). cbn [String.length]. lia.
Qed.

(** The first occurrence lies in the part of the text where the
    pattern occurs. *)
Lemma replace_app_l (pat rep s t : string) :
  includes pat s = true → replace pat rep (s +:+ t) = replace pat rep s +:+ t.
Proof.
  induction s as [|c s IH]; cbn [includes]; intros H.
  - apply orb_true_iff in H as [H|H]; [|discriminate].
    destruct pat; [|discriminate].
    change ("" +:+ t) with t. cbn [replace String.prefix String.length drop].
    rewrite string_app_assoc. by destruct t.
  - change (String c s +:+ t) with (String c (s +:+ t)). cbn [replace].
    change (String c (s +:+ t)) with (String c s +:+ t).
    destruct (String.prefix pat (String c s)) eqn:Hp.
    + rewrite (prefix_app _ _ t Hp). rewrite string_app_assoc. f_equal.
      pose proof (prefix_split pat _ Hp) as Hs.
      assert (Hlen : String.length pat ≤ String.length (String c s)).
      { apply (f_equal String.length) in Hs. rewrite string_length_app in Hs. lia. }
      clear -Hlen. revert Hlen. generalize (String c s) as u.
      induction pat as [|a pat IHp]; intros u Hlen; [done|].
      destruct u as [|b u]; [cbn in Hlen; lia|].
      change (String b u +:+ t) with (String b (u +:+ t)). cbn [String.length drop].
      apply IHp. cbn [String.length] in Hlen. lia.
    + cbn [orb] in H. rewrite prefix_app_short; [|done|].
      * change (String c s +:+ t) with (String c (s +:+ t)).
        change (String c (replace pat rep s) +:+ t)
          with (String c (replace pat rep s +:+ t)). by rewrite IH.
      * pose proof (includes_length pat s H). cbn [String.length]. lia.
Qed.

Lemma replace_length (pat s : string) :
  includes pat s = true →
  String.length (replace pat "" s) + String.length pat = String.length s.
Proof.
  induction s as [|c s IH]; cbn [includes replace]; intros H.
  - apply orb_true_iff in H as [H|H]; [|discriminate].
    destruct pat; [done|discriminate].
  - destruct (String.prefix pat (String c s)) eqn:Hp.
    + change ("" +:+ drop (String.length pat) (String c s))
        with (drop (String.length pat) (String c s)).
      rewrite drop_length.
      pose proof (prefix_split pat _ Hp) as Hs.
      apply (f_equal String.length) in Hs. rewrite string_length_app in Hs. lia.
    + cbn [orb] in H. cbn [String.length]. specialize (IH H). lia.
Qed.

End TrimFacts.

(** X13.  A key file in the generic form whose body happens to contain
    the letters [RSA] is altered by the normalisation: the header has
    no such letters, so the first occurrence in the body is removed
    and the text handed to the decoder is three bytes short. *)
Theorem normalizeKey_alters_body_with_marker (body : string) :
  includes "RSA" body = true →
  CardEncryptor.normalizeKey (Pem.GENERIC_HEADER +:+ body +:+ Pem.GENERIC_FOOTER)
    = Pem.GENERIC_HEADER +:+ replace "RSA" "" body +:+ Pem.GENERIC_FOOTER
  ∧ String.length (replace "RSA" "" body) + 3 = String.length body.
Proof.
  intros Hbody. split; [|exact (TrimFacts.replace_length "RSA" body Hbody)].
  unfold CardEncryptor.normalizeKey.
  replace (replace "RSA" "" (Pem.GENERIC_HEADER +:+ body +:+ Pem.GENERIC_FOOTER))
    with (Pem.GENERIC_HEADER +:+ replace "RSA" "" (body +:+ Pem.GENERIC_FOOTER))
    by reflexivity.
  rewrite (TrimFacts.replace_app_l "RSA" "" body Pem.GENERIC_FOOTER Hbody).
  unfold trim.
  replace (trimStart (Pem.GENERIC_HEADER +:+ replace "RSA" "" body +:+ Pem.GENERIC_FOOTER))
    with (Pem.GENERIC_HEADER +:+ replace "RSA" "" body +:+ Pem.GENERIC_FOOTER)
    by reflexivity.
  rewrite <- string_app_assoc.
  rewrite StringFacts.trimEnd_app by reflexivity.
  reflexivity.
Qed.

Lemma normalizeKey_alters_body_witness :
  CardEncryptor.normalizeKey
    (Pem.GENERIC_HEADER +:+ "MIIBIjANBgkqhkiG9w0BAQEFAAOCAQ8AMIIBRSAoLUW" +:+ Pem.GENERIC_FOOTER)
  = Pem.GENERIC_HEADER +:+ "MIIBIjANBgkqhkiG9w0BAQEFAAOCAQ8AMIIBoLUW" +:+ Pem.GENERIC_FOOTER.
Proof.
  exact (proj1 (normalizeKey_alters_body_with_marker
                  "MIIBIjANBgkqhkiG9w0BAQEFAAOCAQ8AMIIBRSAoLUW" eq_refl)).
Defined.

(** X14.  On a text in which the letters [RSA] do not occur the
    normalisation removes the white space around it and nothing else:
    what is left starts at the first and ends at the last byte that
    is not white space. *)
Theorem normalizeKey_trims_clean_key (lead init trail : string) (a z : ascii) :
  blank lead = true → blank trail = true →
  ws_byte a = false → ws_byte z = false →
  includes "RSA" (lead +:+ String a (init +:+ String z "") +:+ trail) = false →
  CardEncryptor.normalizeKey (lead +:+ String a (init +:+ String z "") +:+ trail)
    = String a (init +:+ String z "").
Proof.
  intros Hlead Htrail Ha Hz Hclean.
  rewrite (StringFacts.normalizeKey_without_marker _ Hclean). unfold trim.
  rewrite (TrimFacts.trimStart_blank_app lead _ Hlead).
  change (String a (init +:+ String z "") +:+ trail)
    with (String a ((init +:+ String z "") +:+ trail)).
  rewrite (TrimFacts.trimStart_nonws a _ Ha).
  change (String a ((init +:+ String z "") +:+ trail))
    with ((String a init +:+ String z "") +:+ trail).
  by rewrite (TrimFacts.trimEnd_app_blank (String a init) trail z Hz Htrail).
Qed.

Lemma normalizeKey_trims_clean_key_witness :
  CardEncryptor.normalizeKey Fixture.keyText = Fixture.keyPem.
Proof.
  exact (normalizeKey_trims_clean_key
           (String.substring 0 5 Fixture.keyText)
           (String.substring 1 (String.length Fixture.keyPem - 2) Fixture.keyPem)
           (String.substring (String.length Fixture.keyText - 1) 1 Fixture.keyText)
           "-"%char "-"%char
           eq_refl eq_refl eq_refl eq_refl eq_refl).
Defined.

(* ================================================================== *)
(** * Further properties of the device capture *)
(* ================================================================== *)

Module CaptureFacts.

Lemma mapped_prefix_test (s : string) :
  String.eqb (substr_to 7 s) MAPPED_PREFIX = String.prefix MAPPED_PREFIX s.
Proof.
  unfold substr_to.
  destruct (String.prefix MAPPED_PREFIX s) eqn:Hp.
  - apply String.eqb_eq. by apply prefix_correct in Hp.
  - apply String.eqb_neq. intros Heq.
    assert (String.prefix MAPPED_PREFIX s = true) by by apply prefix_correct.
    congruence.
Qed.

Lemma resolvedAddress_nonempty (request : Request) (h : gmap string string) :
  resolvedAddress request h ≠ "".
Proof.
  unfold resolvedAddress, str_or, nonempty.
  destruct (ip request) as [s|]; [destruct (String.eqb_spec s ""); [|done]|];
    (destruct (h !! "x-forwarded-for") as [x|]; [|done];
     destruct (String.eqb_spec x ""); done).
Qed.

End CaptureFacts.

(** X15.  [Device.fromRequest] needs the headers of the request: it
    returns a device exactly when [request.headers] is there, and
    throws a TypeError otherwise, although [BrowserDetails.fromRequest]
    guards against their absence.  The other Device source needs, on
    top of the headers, a truthy [request.ip] or a [request.connection]. *)
Theorem fromRequest_needs_headers (request : Request) :
  (is_normal (Device.fromRequest request) = true ↔ is_Some (headers request))
  ∧ (is_normal (DeviceAlt.fromRequest request) = true
     ↔ is_Some (headers request)
       ∧ (is_Some (nonempty (ip request)) ∨ is_Some (connection request)))
  ∧ (headers request = None →
     ∃ e, Device.fromRequest request = Throw e ∧ name e = TypeError).
Proof.
  unfold Device.fromRequest, DeviceAlt.fromRequest, header.
  destruct (headers request) as [h|].
  - split; [|split].
    + split; [by eexists|]. intros _. by destruct (nonempty (ip request)).
    + split.
      * intros Hn. split; [by eexists|].
        destruct (nonempty (ip request)) as [s|]; [left; by eexists|].
        destruct (connection request) as [sock|]; [right; by eexists|].
        discriminate.
      * intros [_ [[s Hs] | [sock Hsock]]].
        -- by rewrite Hs.
        -- rewrite Hsock. by destruct (nonempty (ip request)).
    + discriminate.
  - split; [|split].
    + split.
      * by destruct (nonempty (ip request)).
      * by intros [? ?].
    + split; [discriminate|]. by intros [[? ?] _].
    + intros _. destruct (nonempty (ip request)); by eexists.
Qed.

(** X16.  How the address of a device is resolved.  A truthy
    [request.ip] wins over the [x-forwarded-for] header, the header is
    taken whole (a list of addresses is not split), and [127.0.0.1] is
    used when both are missing or empty.  An address that does not
    begin with [::ffff:] is returned as it is; and [ipAddress] is the
    empty string exactly when the address is the bare prefix. *)
Theorem fromRequest_address_resolution (request : Request) (h : gmap string string) :
  headers request = Some h →
  ∃ d a,
    Device.fromRequest request = Normal d ∧ ipAddress d = JStr a
    ∧ (∀ s, nonempty (ip request) = Some s → resolvedAddress request h = s)
    ∧ (∀ s, nonempty (ip request) = None → nonempty (h !! "x-forwarded-for") = Some s →
            resolvedAddress request h = s)
    ∧ (nonempty (ip request) = None → nonempty (h !! "x-forwarded-for") = None →
       resolvedAddress request h = "127.0.0.1")
    ∧ (String.prefix MAPPED_PREFIX (resolvedAddress request h) = false →
       a = resolvedAddress request h)
    ∧ (a = "" ↔ resolvedAddress request h = MAPPED_PREFIX).
Proof.
  intros Hh. rewrite (DeviceFacts.fromRequest_normal request h Hh). cbv zeta.
  fold (resolvedAddress request h). eexists _, _.
  split; [reflexivity|]. split; [reflexivity|].
  rewrite CaptureFacts.mapped_prefix_test.
  split; [by unfold resolvedAddress; intros s ->|].
  split; [by unfold resolvedAddress, str_or; intros s -> ->|].
  split; [by unfold resolvedAddress, str_or; intros -> ->|].
  pose proof (CaptureFacts.resolvedAddress_nonempty request h) as Hne.
  destruct (String.prefix MAPPED_PREFIX (resolvedAddress request h)) eqn:Hp.
  - split; [discriminate|].
    pose proof (TrimFacts.prefix_split _ _ Hp) as Hsplit.
    change (String.length MAPPED_PREFIX) with 7 in Hsplit.
    unfold substr_from. split.
    + intros Hempty. rewrite Hempty in Hsplit. by rewrite Hsplit.
    + intros Hbare. by rewrite Hbare.
  - split; [done|]. split; [done|].
    intros Hbare. rewrite Hbare in Hp. discriminate.
Qed.

Lemma fromRequest_address_resolution_witness :
  ∃ d, Device.fromRequest
         {| ip := Some "";
            headers := Some {[ "x-forwarded-for" := "198.51.100.7, 203.0.113.5" ]};
            connection := None |} = Normal d
       ∧ ipAddress d = JStr "198.51.100.7, 203.0.113.5".
Proof.
  destruct (fromRequest_address_resolution
              {| ip := Some "";
                 headers := Some {[ "x-forwarded-for" := "198.51.100.7, 203.0.113.5" ]};
                 connection := None |}
              {[ "x-forwarded-for" := "198.51.100.7, 203.0.113.5" ]} eq_refl)
    as (d & a & Hd & Ha & _ & Hxff & _ & Hkeep & _).
  exists d. split; [exact Hd|]. rewrite Ha. f_equal.
  rewrite (Hkeep eq_refl). exact (Hxff _ eq_refl eq_refl).
Defined.

(** X17.  [BrowserDetails.fromRequest] of src/Types/BrowserDetails.js
    does not look at the [accept-language] header: the language it
    reports is always [en-US].  The other BrowserDetails source reports
    the header when it is not empty. *)
Theorem fromRequest_ignores_accept_language
    (request : Request) (h : gmap string string) (language : string) :
  headers request = Some h →
  BrowserDetails.fromRequest (withHeaders request (<["accept-language" := language]> h))
    = BrowserDetails.fromRequest request
  ∧ field (BrowserDetails.toArray (BrowserDetails.fromRequest request)) "language"
    = JStr "en-US"
  ∧ (language ≠ "" →
     field (BrowserDetailsAlt.toArray
              (BrowserDetailsAlt.fromRequest
                 (withHeaders request (<["accept-language" := language]> h))))
           "language"
     = JStr language).
Proof.
  intros Hh. unfold BrowserDetails.fromRequest, BrowserDetailsAlt.fromRequest, withHeaders.
  cbn [headers default]. rewrite Hh. cbn [default]. cbv zeta. unfold id.
  assert (Haccept : (<["accept-language" := language]> h : gmap string string) !! "accept"
                    = h !! "accept") by by apply lookup_insert_ne.
  assert (Hlanguage : (<["accept-language" := language]> h : gmap string string)
                        !! "accept-language" = Some language) by by apply lookup_insert_eq.
  rewrite Haccept, Hlanguage.
  split; [reflexivity|]. split; [reflexivity|].
  intros Hlang.
  assert (Hor : str_or (Some language) "en-US" = language).
  { unfold str_or, nonempty. by destruct (String.eqb_spec language ""). }
  rewrite Hor. reflexivity.
Qed.

Lemma fromRequest_ignores_accept_language_witness :
  field (BrowserDetails.toArray
           (BrowserDetails.fromRequest
              (withHeaders Fixture.bareRequest (<["accept-language" := "fr-FR"]> ∅))))
        "language"
  = JStr "en-US".
Proof.
  rewrite (proj1 (fromRequest_ignores_accept_language Fixture.bareRequest ∅ "fr-FR" eq_refl)).
  reflexivity.
Defined.
